(** * Product API (server.js): a shallow embedding and its properties

    The program is an Express application over one module-level array
    [products].  The embedding follows the file from top to bottom:
    the error classes, the middleware functions, the seeded array, the
    route handlers, and finally the order in which [app.use], [app.get],
    [app.post], [app.put] and [app.delete] register them. *)

From Stdlib Require Import ZArith Floats String Ascii Bool.
From stdpp Require Import base list gmap strings pretty.

Local Open Scope string_scope.
Local Open Scope Z_scope.

(** ** JavaScript values *)

(** A request body is what [JSON.parse] returns, so the values handled by
    the program are JSON values.  Numbers are IEEE binary64, as in
    JavaScript.  [VUndefined] is what reading a missing property gives;
    [JSON.parse] itself never produces it. *)
Unset Elimination Schemes.
Inductive value : Type :=
| VUndefined
| VNull
| VBool (b : bool)
| VNum (n : float)
| VStr (s : string)
| VArr (items : list value)
| VObj (fields : list (string * value)).
Set Elimination Schemes.

(** ToBoolean.  [undefined], [null], [false], [0], [-0], [NaN] and the
    empty string are falsy; arrays and objects are truthy. *)
Definition truthy (v : value) : bool :=
  match v with
  | VUndefined => false
  | VNull => false
  | VBool b => b
  | VNum n => negb (PrimFloat.eqb n 0%float) && negb (PrimFloat.is_nan n)
  | VStr s => negb (String.eqb s "")
  | VArr _ => true
  | VObj _ => true
  end.

(** [typeof v === 'number'] *)
Definition is_number (v : value) : bool :=
  match v with
  | VNum _ => true
  | _ => false
  end.

(** [v <= 0] for a value whose [typeof] is ['number']; the validator only
    evaluates the comparison in that case ([||] short-circuits). *)
Definition le_zero (v : value) : bool :=
  match v with
  | VNum n => PrimFloat.leb n 0%float
  | _ => false
  end.

(** [a || b] *)
Definition or_else (a b : value) : value :=
  if truthy a then a else b.

(** [a !== undefined ? a : b] *)
Definition defined_or (a b : value) : value :=
  match a with
  | VUndefined => b
  | _ => a
  end.

(** [o.k] on a parsed JSON object: the stored value, or [undefined]. *)
Definition prop (o : gmap string value) (k : string) : value :=
  default VUndefined (o !! k).

(** ** Strings *)

(** A string is a sequence of bytes: ASCII text as it is, other text in
    UTF-8, which keeps equality and, for well-formed strings, the
    substring relation. *)

(** Folding the letters A-Z to a-z, all other bytes left as they are.
    This is how Express compares the literal segments of a route with a
    request path (without regard to the case of ASCII letters). *)
Definition lower_ascii (c : ascii) : ascii :=
  let n := nat_of_ascii c in
  if (Nat.leb 65 n && Nat.leb n 90)%bool then ascii_of_nat (n + 32) else c.

Fixpoint fold_ascii (s : string) : string :=
  match s with
  | EmptyString => EmptyString
  | String c r => String (lower_ascii c) (fold_ascii r)
  end.

(** [s.includes(t)]: [t] occurs in [s] at some position. *)
Fixpoint includes (s t : string) : bool :=
  String.prefix t s ||
  match s with
  | EmptyString => false
  | String _ r => includes r t
  end.

(** ** The JavaScript engine *)

(** The two built-in conversions of the engine that the program relies on
    and that are not spelled out here: [String.prototype.toLowerCase],
    which folds letters as Unicode directs, and the conversion of a number
    to a string (Number::toString).  Every definition and theorem of the
    server below holds for any engine; of [toLowerCase] only the fact that
    it leaves the empty string empty is used. *)
Class Engine : Type := {
  toLowerCase : string -> string;
  number_to_string : float -> string;
  toLowerCase_empty : toLowerCase "" = ""
}.

(** An engine to evaluate the examples with.  The examples hold ASCII
    strings, on which [fold_ascii] is what [toLowerCase] does; as keys
    they use no numbers, and this engine only prints whole numbers, in
    decimal, as JavaScript does below 10^21. *)
Definition whole_number_to_string (n : float) : string :=
  match Prim2SF n with
  | S754_zero _ => "0"
  | S754_infinity false => "Infinity"
  | S754_infinity true => "-Infinity"
  | S754_nan => "NaN"
  | S754_finite negative m e =>
      let digits :=
        if 0 <=? e then pretty (Z.pos m * 2 ^ e)
        else pretty (Z.pos m / 2 ^ (- e)) in
      if negative then ("-" ++ digits)%string else digits
  end.

Definition ascii_engine : Engine :=
  {| toLowerCase := fold_ascii;
     number_to_string := whole_number_to_string;
     toLowerCase_empty := eq_refl |}.

Section Server.

Context {engine : Engine}.

(** ** Errors *)

(** An error object: the fields the program reads.  [statusCode] is absent
    on errors that are not one of the three classes below unless whoever
    raised them set it. *)
Record Error : Type := mkError {
  err_name : string;
  err_message : string;
  statusCode : option Z
}.

Definition NotFoundError (message : string) : Error :=
  mkError "NotFoundError" message (Some 404).

Definition ValidationError (message : string) : Error :=
  mkError "ValidationError" message (Some 400).

Definition AuthError (message : string) : Error :=
  mkError "AuthError" message (Some 401).

(** A [TypeError] raised by the JavaScript engine (calling something that
    is not a function); it carries no [statusCode]. *)
Definition TypeError (message : string) : Error :=
  mkError "TypeError" message None.

(** ** Products *)

Record Product : Type := mkProduct {
  id : string;
  name : value;
  description : value;
  price : value;
  category : value;
  inStock : value
}.

(** [let products = [...]]: the three sample records. *)
Definition seeded_products : list Product :=
  [ mkProduct "1" (VStr "Laptop")
      (VStr "High-performance laptop with 16GB RAM")
      (VNum 1200) (VStr "electronics") (VBool true);
    mkProduct "2" (VStr "Smartphone")
      (VStr "Latest model with 128GB storage")
      (VNum 800) (VStr "electronics") (VBool true);
    mkProduct "3" (VStr "Coffee Maker")
      (VStr "Programmable coffee maker with timer")
      (VNum 50) (VStr "kitchen") (VBool false) ].

(** ** Requests and responses *)

(** The numbers of the pagination: an integer, or one of the two
    infinities.  [parseInt] returns such a number, or [NaN]; a string of
    more digits than a double can hold parses to an infinity. *)
Inductive xint : Type :=
| Fin (z : Z)
| PosInf
| NegInf.

Coercion Fin : Z >-> xint.

(** [req.query].  [query_page] and [query_limit] hold
    [parseInt(req.query.page)] and [parseInt(req.query.limit)], with
    [None] for [NaN] (parameter absent or not starting with a number).
    [query_category] and [query_search] are parameters given once, as
    plain strings. *)
Record Query : Type := mkQuery {
  query_category : option string;
  query_search : option string;
  query_page : option xint;
  query_limit : option xint
}.

(** What [bodyParser.json()] makes of the request: the parsed object (an
    empty object when there is no JSON body), or the error it raises on
    malformed input. *)
Inductive Payload : Type :=
| Parsed (obj : gmap string value)
| Malformed (e : Error).

Record Request : Type := mkRequest {
  method : string;
  path : list string;          (* the segments of the URL path *)
  x_api_key : option string;   (* req.headers['x-api-key'] *)
  query : Query;
  payload : Payload
}.

(** [req.body] once the body parser has run. *)
Definition body (req : Request) : gmap string value :=
  match payload req with
  | Parsed obj => obj
  | Malformed _ => ∅
  end.

(** A value of the [categories] object of the statistics: a count, or
    [NaN] (which [JSON.stringify] writes as [null]). *)
Inductive Count : Type :=
| Counted (n : Z)
| NotANumber.

(** The JSON documents the program sends, as the objects given to
    [res.json]. *)
Inductive Body : Type :=
| JProduct (p : Product)
| JListing (total : Z) (page : xint) (pages : Z) (listed : list Product)
| JStats (totalProducts inStockCount : Z) (categories : gmap string Count)
| JError (name message : string) (status : Z).

Inductive Response : Type :=
| Send (status : Z) (text : string)   (* res.send(text) *)
| SendEmpty (status : Z)              (* res.status(s).send() *)
| Json (status : Z) (doc : Body)      (* res.status(s).json(doc) *)
| DefaultError (e : Error)            (* [e] was left to Express' built-in handler *)
| DefaultNotFound.                    (* no layer answered the request *)

(** What one middleware or handler function does with a request: call
    [next()], raise or pass on an error ([throw e] inside Express'
    try/catch, or [next(e)]), or send the response. *)
Inductive Outcome : Type :=
| Next
| Throw (e : Error)
| Respond (r : Response).

(** A function [(req, res, next) => ...].  It also receives [req.params],
    the string [uuidv4()] returns if it is called while this request is
    handled, and the current [products] array; it returns the array it
    leaves behind. *)
Definition Handler : Type :=
  Request -> list (string * string) -> string -> list Product ->
  list Product * Outcome.

(** [req.params.k] *)
Fixpoint param (k : string) (ps : list (string * string)) : string :=
  match ps with
  | [] => ""
  | (k', v) :: rest => if String.eqb k k' then v else param k rest
  end.

(** ** Middleware *)

(** The logger writes a line to the console and calls [next()]; the console
    is not part of the modelled state. *)
Definition logger : Handler :=
  fun req ps uuid products => (products, Next).

(** [bodyParser.json()] *)
Definition json_body_parser : Handler :=
  fun req ps uuid products =>
    match payload req with
    | Parsed _ => (products, Next)
    | Malformed e => (products, Throw e)
    end.

Definition authenticate : Handler :=
  fun req ps uuid products =>
    let apiKey := x_api_key req in
    match apiKey with
    | None => (products, Throw (AuthError "Invalid or missing API key"))
    | Some k =>
        if String.eqb k "" || negb (String.eqb k "secret-api-key")
        then (products, Throw (AuthError "Invalid or missing API key"))
        else (products, Next)
    end.

Definition validateProduct : Handler :=
  fun req ps uuid products =>
    if String.eqb (method req) "POST" || String.eqb (method req) "PUT" then
      let name := prop (body req) "name" in
      let price := prop (body req) "price" in
      if negb (truthy name) || negb (truthy price) then
        (products, Throw (ValidationError "Name and price are required"))
      else if negb (is_number price) || le_zero price then
        (products, Throw (ValidationError "Price must be a positive number"))
      else (products, Next)
    else (products, Next).

(** [err.statusCode || 500] *)
Definition status_of (err : Error) : Z :=
  match statusCode err with
  | Some c => if c =? 0 then 500 else c
  | None => 500
  end.

(** The error-handling middleware [(err, req, res, next) => ...]. *)
Definition error_handler (err : Error) (req : Request) : Response :=
  let statusCode := status_of err in
  Json statusCode (JError (err_name err) (err_message err) statusCode).

(** ** Array helpers *)

(** [l.filter(f)] when the callback [f] may raise: the first error, in
    iteration order, aborts the whole call. *)
Fixpoint filter_throwing {A : Type} (f : A -> Error + bool) (l : list A)
  : Error + list A :=
  match l with
  | [] => inr []
  | x :: rest =>
      match f x with
      | inl e => inl e
      | inr keep =>
          match filter_throwing f rest with
          | inl e => inl e
          | inr kept => inr (if keep then x :: kept else kept)
          end
      end
  end.

(** An index of [slice], made relative to an array of length [len]:
    [NaN] counts as 0, a negative index counts from the end, and the
    result is clamped to [0, len]. *)
Definition slice_index (len : Z) (i : option xint) : Z :=
  match i with
  | None => 0
  | Some (Fin z) => if z <? 0 then Z.max (len + z) 0 else Z.min z len
  | Some PosInf => len
  | Some NegInf => 0
  end.

(** [l.slice(start, end)], where [None] is [NaN]. *)
Definition js_slice {A : Type} (l : list A) (start finish : option xint)
  : list A :=
  let len := Z.of_nat (length l) in
  let k := slice_index len start in
  let final := slice_index len finish in
  take (Z.to_nat (final - k)) (drop (Z.to_nat k) l).

(** [a - 1], kept exact on integers like the products below. *)
Definition minus_one (a : xint) : xint :=
  match a with
  | Fin z => Fin (z - 1)
  | PosInf => PosInf
  | NegInf => NegInf
  end.

Definition sign (a : xint) : Z :=
  match a with
  | Fin z => Z.sgn z
  | PosInf => 1
  | NegInf => -1
  end.

(** [a * b], where [None] is [NaN], the product of 0 and an infinity.
    The product of two integers is kept exact.  A double rounds it, or
    overflows to an infinity, only beyond 2^53, and the only use of the
    products is as indexes of [slice], which clamps such an index to the
    same end of the array as the exact value (an array has fewer than 2^32
    elements). *)
Definition times (a b : xint) : option xint :=
  match a, b with
  | Fin x, Fin y => Some (Fin (x * y))
  | _, _ =>
      match sign a * sign b with
      | Z0 => None
      | Zpos _ => Some PosInf
      | Zneg _ => Some NegInf
      end
  end.

(** [Math.ceil(a / b)] for integers [a] and [b <> 0]. *)
Definition ceil_div (a b : Z) : Z := - ((- a) / b).

(** [Math.ceil(total / limit)] for a length [total] and a [limit] that is
    not 0: the quotient by an infinity is 0. *)
Definition pages_of (total : Z) (limit : xint) : Z :=
  match limit with
  | Fin b => ceil_div total b
  | PosInf => 0
  | NegInf => 0
  end.

(** [n || d] where [n] is the result of [parseInt]: [NaN] and [0] are
    falsy. *)
Definition int_or (n : option xint) (d : xint) : xint :=
  match n with
  | Some (Fin z) => if z =? 0 then d else Fin z
  | Some k => k
  | None => d
  end.

(** [a <= b] and [a < b] on these numbers. *)
Definition xle (a b : xint) : Prop :=
  match a, b with
  | NegInf, _ => True
  | _, PosInf => True
  | Fin x, Fin y => x <= y
  | Fin _, NegInf => False
  | PosInf, _ => False
  end.

Definition xlt (a b : xint) : Prop :=
  match a, b with
  | _, NegInf => False
  | PosInf, _ => False
  | Fin x, Fin y => x < y
  | Fin _, PosInf => True
  | NegInf, _ => True
  end.

(** [v.toLowerCase()], where [expr] is the source text of [v]: a string
    method call on anything but a string raises a [TypeError]. *)
Definition lower_of (expr : string) (v : value) : Error + string :=
  match v with
  | VStr s => inr (toLowerCase s)
  | VUndefined =>
      inl (TypeError "Cannot read properties of undefined (reading 'toLowerCase')")
  | VNull =>
      inl (TypeError "Cannot read properties of null (reading 'toLowerCase')")
  | _ => inl (TypeError (expr ++ ".toLowerCase is not a function")%string)
  end.

(** ** Route handlers *)

(** [app.get('/')] *)
Definition get_root : Handler :=
  fun req ps uuid products =>
    (products,
     Respond (Send 200
       "Welcome to the Product API! Go to /api/products to see all products.")).

(** The callback [p => p.category.toLowerCase() === req.query.category.toLowerCase()] *)
Definition category_is (wanted : string) (p : Product) : Error + bool :=
  match lower_of "p.category" (category p) with
  | inl e => inl e
  | inr c => inr (String.eqb c (toLowerCase wanted))
  end.

(** The callback [p => p.name.toLowerCase().includes(searchTerm)] *)
Definition name_includes (searchTerm : string) (p : Product) : Error + bool :=
  match lower_of "p.name" (name p) with
  | inl e => inl e
  | inr n => inr (includes n searchTerm)
  end.

(** The two filtering steps of the listing, in the order of the source:
    category first, then search.  A query parameter that is absent or the
    empty string is falsy and skips its step. *)
Definition filter_by_category (q : Query) (l : list Product) : Error + list Product :=
  match query_category q with
  | Some c => if String.eqb c "" then inr l else filter_throwing (category_is c) l
  | None => inr l
  end.

Definition filter_by_search (q : Query) (l : list Product) : Error + list Product :=
  match query_search q with
  | Some s =>
      if String.eqb s "" then inr l
      else let searchTerm := toLowerCase s in
           filter_throwing (name_includes searchTerm) l
  | None => inr l
  end.

Definition filteredProducts (q : Query) (products : list Product)
  : Error + list Product :=
  match filter_by_category q products with
  | inl e => inl e
  | inr l => filter_by_search q l
  end.

(** [app.get('/api/products')] *)
Definition get_products : Handler :=
  fun req ps uuid products =>
    match filteredProducts (query req) products with
    | inl err => (products, Throw err)
    | inr filtered =>
        let page := int_or (query_page (query req)) 1 in
        let limit := int_or (query_limit (query req)) 10 in
        let startIndex := times (minus_one page) limit in
        let endIndex := times page limit in
        let paginatedProducts := js_slice filtered startIndex endIndex in
        (products,
         Respond (Json 200
           (JListing (Z.of_nat (length filtered)) page
              (pages_of (Z.of_nat (length filtered)) limit)
              paginatedProducts)))
    end.

(** ToString of a value that came out of [JSON.parse].  An array is
    joined with commas, [null] and [undefined] elements giving the empty
    string.  An object without a property of its own named [toString] is
    printed by [Object.prototype.toString]; with one, which cannot be a
    function, neither [toString] nor [valueOf] yields a primitive and the
    conversion raises a [TypeError]. *)
Fixpoint js_to_string (v : value) : Error + string :=
  match v with
  | VUndefined => inr "undefined"
  | VNull => inr "null"
  | VBool b => inr (if b then "true" else "false")
  | VNum n => inr (number_to_string n)
  | VStr s => inr s
  | VArr items =>
      (fix join (l : list value) : Error + string :=
         match l with
         | [] => inr ""
         | x :: rest =>
             let first :=
               match x with
               | VUndefined => inr ""
               | VNull => inr ""
               | _ => js_to_string x
               end in
             match first with
             | inl e => inl e
             | inr a =>
                 match rest with
                 | [] => inr a
                 | _ :: _ =>
                     match join rest with
                     | inl e => inl e
                     | inr b => inr (a ++ "," ++ b)%string
                     end
                 end
             end
         end) items
  | VObj fields =>
      if existsb (fun kv => String.eqb (fst kv) "toString") fields
      then inl (TypeError "Cannot convert object to primitive value")
      else inr "[object Object]"
  end.

(** ToPropertyKey, for [o[v]]. *)
Definition property_key (v : value) : Error + string := js_to_string v.

(** The properties every object inherits from [Object.prototype] as
    functions.  [__proto__] is inherited too, as an accessor. *)
Definition inherited_functions : list string :=
  [ "constructor"; "hasOwnProperty"; "isPrototypeOf";
    "propertyIsEnumerable"; "toLocaleString"; "toString"; "valueOf";
    "__defineGetter__"; "__defineSetter__";
    "__lookupGetter__"; "__lookupSetter__" ].

(** One turn of the [forEach] loop on the [categories] object [o], with
    [k] the property key of [product.category]:
    [if (!o[k]) { o[k] = 0; } o[k]++;].
    A count of the object's own is incremented; [NaN] is falsy and starts
    again from 0.  Without a property of its own, [o[k]] is [undefined],
    and the count starts at 1, unless [k] names an inherited function:
    that is truthy, and incrementing it stores [NaN].  For [__proto__] the
    read gives the prototype, and the write goes to a setter that ignores
    numbers. *)
Definition tally_step (o : gmap string Count) (k : string)
  : gmap string Count :=
  if String.eqb k "__proto__" then o
  else
    match o !! k with
    | Some (Counted n) => <[k := Counted (n + 1)]> o
    | Some NotANumber => <[k := Counted 1]> o
    | None =>
        if existsb (String.eqb k) inherited_functions
        then <[k := NotANumber]> o
        else <[k := Counted 1]> o
    end.

(** [products.forEach(product => ...)] on the [categories] object. *)
Fixpoint tally (o : gmap string Count) (products : list Product)
  : Error + gmap string Count :=
  match products with
  | [] => inr o
  | product :: rest =>
      match property_key (category product) with
      | inl e => inl e
      | inr k => tally (tally_step o k) rest
      end
  end.

(** [app.get('/api/products/stats')] *)
Definition get_products_stats : Handler :=
  fun req ps uuid products =>
    let totalProducts := Z.of_nat (length products) in
    let inStock :=
      Z.of_nat (length (List.filter (fun p => truthy (inStock p)) products)) in
    match tally ∅ products with
    | inl err => (products, Throw err)
    | inr categories =>
        (products, Respond (Json 200 (JStats totalProducts inStock categories)))
    end.

(** [app.get('/api/products/:id')] *)
Definition get_product : Handler :=
  fun req ps uuid products =>
    match List.find (fun p => String.eqb (id p) (param "id" ps)) products with
    | None => (products, Throw (NotFoundError "Product not found"))
    | Some product => (products, Respond (Json 200 (JProduct product)))
    end.

(** The object literal built by the create handler. *)
Definition newProduct (uuid : string) (b : gmap string value) : Product :=
  {| id := uuid;
     name := prop b "name";
     description := or_else (prop b "description") (VStr "");
     price := prop b "price";
     category := or_else (prop b "category") (VStr "uncategorized");
     inStock := defined_or (prop b "inStock") (VBool true) |}.

(** [app.post('/api/products')], after [validateProduct]. *)
Definition post_products : Handler :=
  fun req ps uuid products =>
    let created := newProduct uuid (body req) in
    ((products ++ [created])%list, Respond (Json 201 (JProduct created))).

(** [Object.assign(product, {...})] of the update handler: the record
    after the assignment. *)
Definition assigned (product : Product) (b : gmap string value) : Product :=
  {| id := id product;
     name := or_else (prop b "name") (name product);
     description := or_else (prop b "description") (description product);
     price := or_else (prop b "price") (price product);
     category := or_else (prop b "category") (category product);
     inStock := defined_or (prop b "inStock") (inStock product) |}.

(** [app.put('/api/products/:id')], after [validateProduct].  [find]
    returns the first record with the id; it is updated in place, at its
    position in the array. *)
Definition put_product : Handler :=
  fun req ps uuid products =>
    match list_find (fun p => id p = param "id" ps) products with
    | None => (products, Throw (NotFoundError "Product not found"))
    | Some (k, product) =>
        let updated := assigned product (body req) in
        (<[k := updated]> products, Respond (Json 200 (JProduct updated)))
    end.

(** [app.delete('/api/products/:id')] *)
Definition delete_product : Handler :=
  fun req ps uuid products =>
    let productExists :=
      existsb (fun p => String.eqb (id p) (param "id" ps)) products in
    if negb productExists then
      (products, Throw (NotFoundError "Product not found"))
    else
      (List.filter (fun p => negb (String.eqb (id p) (param "id" ps))) products,
       Respond (SendEmpty 204)).

(** ** The application: registered layers and dispatch *)

(** One segment of a route path: a literal, or a named parameter [:k]. *)
Inductive Segment : Type :=
| Lit (s : string)
| Par (k : string).

(** What [app.use] and [app.METHOD] push on the router's stack.  Express
    tells error-handling middleware from ordinary middleware by the number
    of parameters of the function (four against three). *)
Inductive Layer : Type :=
| Use (h : Handler)
| UseError (h : Error -> Request -> Response)
| Route (verb : string) (pattern : list Segment) (handlers : list Handler).

(** Matching a route path against the request path; gives [req.params]. *)
Fixpoint match_path (pattern : list Segment) (segments : list string)
  : option (list (string * string)) :=
  match pattern, segments with
  | [], [] => Some []
  | Lit s :: pattern', x :: segments' =>
      if String.eqb s x then match_path pattern' segments' else None
  | Par k :: pattern', x :: segments' =>
      match match_path pattern' segments' with
      | Some ps => Some ((k, x) :: ps)
      | None => None
      end
  | _, _ => None
  end.

(** The handlers of one route, in order: each runs when the one before it
    called [next()]. *)
Fixpoint run_handlers (hs : list Handler) (req : Request)
    (ps : list (string * string)) (uuid : string) (products : list Product)
  : list Product * Outcome :=
  match hs with
  | [] => (products, Next)
  | h :: rest =>
      match h req ps uuid products with
      | (products', Next) => run_handlers rest req ps uuid products'
      | done => done
      end
  end.

(** Express' [next]: the stack is walked once, front to back.  While no
    error is pending, error-handling layers are skipped; once an error is
    pending, only the error-handling layers that come later in the stack
    can receive it.  What falls off the end is answered by Express
    itself. *)
Fixpoint run_stack (stack : list Layer) (pending : option Error)
    (req : Request) (uuid : string) (products : list Product)
  : list Product * Response :=
  match stack with
  | [] =>
      match pending with
      | Some e => (products, DefaultError e)
      | None => (products, DefaultNotFound)
      end
  | layer :: rest =>
      match pending, layer with
      | Some e, UseError h => (products, h e req)
      | Some e, _ => run_stack rest pending req uuid products
      | None, UseError _ => run_stack rest None req uuid products
      | None, Use h =>
          match h req [] uuid products with
          | (products', Next) => run_stack rest None req uuid products'
          | (products', Throw e) => run_stack rest (Some e) req uuid products'
          | (products', Respond r) => (products', r)
          end
      | None, Route verb pattern hs =>
          if String.eqb (method req) verb then
            match match_path pattern (path req) with
            | Some ps =>
                match run_handlers hs req ps uuid products with
                | (products', Next) => run_stack rest None req uuid products'
                | (products', Throw e) => run_stack rest (Some e) req uuid products'
                | (products', Respond r) => (products', r)
                end
            | None => run_stack rest None req uuid products
            end
          else run_stack rest None req uuid products
      end
  end.

(** The layers in the order server.js registers them: the three
    [app.use] calls, then the routes.  [authenticate] is defined in the
    file but passed to no [app.use] and to no route, so it is in no
    layer. *)
Definition routes : list Layer :=
  [ Route "GET" [] [get_root];
    Route "GET" [Lit "api"; Lit "products"] [get_products];
    Route "GET" [Lit "api"; Lit "products"; Lit "stats"] [get_products_stats];
    Route "GET" [Lit "api"; Lit "products"; Par "id"] [get_product];
    Route "POST" [Lit "api"; Lit "products"] [validateProduct; post_products];
    Route "PUT" [Lit "api"; Lit "products"; Par "id"] [validateProduct; put_product];
    Route "DELETE" [Lit "api"; Lit "products"; Par "id"] [delete_product] ].

Definition app : list Layer :=
  Use logger :: Use json_body_parser :: UseError error_handler :: routes.

(** Handling one request: the array left behind and the response. *)
Definition handle (products : list Product) (uuid : string) (req : Request)
  : list Product * Response :=
  run_stack app None req uuid products.

(** ** How a response comes about *)

(** The handler functions a layer holds. *)
Definition layer_handlers (layer : Layer) : list Handler :=
  match layer with
  | Use h => [h]
  | UseError _ => []
  | Route _ _ hs => hs
  end.

Definition stack_handlers (stack : list Layer) : list Handler :=
  concat (map layer_handlers stack).

(** A handler is quiet when it leaves the array alone unless it answers. *)
Definition quiet (h : Handler) : Prop :=
  forall req ps u st,
    match h req ps u st with
    | (st', Respond _) => True
    | (st', _) => st' = st
    end.

(** The ways a walk through a stack of quiet handlers can end, with the
    array it leaves: one handler answers, an error handler of the stack
    answers, or nothing does and Express answers. *)
Inductive Answer (stack : list Layer) (req : Request) (u : string)
    (st : list Product) : list Product -> Response -> Prop :=
| by_handler h ps st' r :
    In h (stack_handlers stack) ->
    h req ps u st = (st', Respond r) ->
    Answer stack req u st st' r
| by_error_handler h e :
    In (UseError h) stack ->
    Answer stack req u st st (h e req)
| by_default_error e :
    Answer stack req u st st (DefaultError e)
| by_default_not_found :
    Answer stack req u st st DefaultNotFound.

(** What a request does to the array, seen from outside. *)
Inductive Effect (st : list Product) (u : string) (req : Request)
  : list Product -> Response -> Prop :=
| eff_none r :
    (forall p, r <> Json 201 (JProduct p)) ->
    Effect st u req st r
| eff_created :
    Effect st u req (st ++ [newProduct u (body req)])%list
      (Json 201 (JProduct (newProduct u (body req))))
| eff_updated i k p :
    list_find (fun p => id p = i) st = Some (k, p) ->
    Effect st u req (<[k := assigned p (body req)]> st)
      (Json 200 (JProduct (assigned p (body req))))
| eff_deleted i :
    In i (map id st) ->
    Effect st u req
      (List.filter (fun p => negb (String.eqb (id p) i)) st)
      (SendEmpty 204).

(** A response that reports a failure: an error left to Express, no route,
    or the error document. *)
Definition is_failure (r : Response) : bool :=
  match r with
  | DefaultError _ => true
  | DefaultNotFound => true
  | Json _ (JError _ _ _) => true
  | _ => false
  end.

(** ** Notions used in the statements *)

(** The body rule of the validator, as the four ways to break it. *)
Definition violation (b : gmap string value) : Prop :=
  truthy (prop b "name") = false \/
  truthy (prop b "price") = false \/
  is_number (prop b "price") = false \/
  le_zero (prop b "price") = true.

(** The handler lists of the three routes that write to the array. *)
Definition mutating_routes : list (list Handler) :=
  [ [validateProduct; post_products];
    [validateProduct; put_product];
    [delete_product] ].

Definition ids (st : list Product) : list string := map id st.

(** The arrays the server can hold: the seeded one, and the one left by
    any request handled from a reachable array, as long as [uuidv4()]
    would return an id that is not in that array.  Only the create handler
    reads [u]. *)
Inductive reachable : list Product -> Prop :=
| reach_seeded : reachable seeded_products
| reach_handle st u req :
    reachable st -> ~ In u (ids st) ->
    reachable (fst (handle st u req)).

(** The pagination property of one request, where [F] is the array after
    both filters. *)
Definition listing_as_claimed (st : list Product) (u : string)
    (req : Request) (F : list Product) : Prop :=
  let page := int_or (query_page (query req)) 1 in
  let limit := int_or (query_limit (query req)) 10 in
  let total := Z.of_nat (length F) in
  let pages := pages_of total limit in
  exists listed,
    handle st u req = (st, Json 200 (JListing total page pages listed)) /\
    listed = js_slice F (times (minus_one page) limit) (times page limit) /\
    xle (Z.of_nat (length listed)) limit /\
    (xlt pages page -> listed = []).

(** The two tests of the listing, on a record: its category is the string
    [X] up to case, and its name holds the string [Y] up to case, where
    up to case means after [toLowerCase] on both sides. *)
Definition category_equals_ci (X : string) (p : Product) : bool :=
  match category p with
  | VStr c => String.eqb (toLowerCase c) (toLowerCase X)
  | _ => false
  end.

Definition name_contains_ci (Y : string) (p : Product) : bool :=
  match name p with
  | VStr n => includes (toLowerCase n) (toLowerCase Y)
  | _ => false
  end.

Definition selected (X : string) (Y : option string) (p : Product) : bool :=
  category_equals_ci X p &&
  match Y with
  | Some y => name_contains_ci y p
  | None => true
  end.

(** The filtering property of one request with [category=X]: the listing
    is the page slice of exactly the selected records, in array order. *)
Definition filter_as_claimed (st : list Product) (u : string)
    (req : Request) (X : string) : Prop :=
  let page := int_or (query_page (query req)) 1 in
  let limit := int_or (query_limit (query req)) 10 in
  let F := List.filter (selected X (query_search (query req))) st in
  exists pages,
    handle st u req =
    (st, Json 200
           (JListing (Z.of_nat (length F)) page pages
              (js_slice F (times (minus_one page) limit)
                 (times page limit)))).

(** A record whose category is a string, and one whose name is. *)
Definition string_category (p : Product) : Prop :=
  exists c, category p = VStr c.

Definition string_name (p : Product) : Prop :=
  exists n, name p = VStr n.

(** ** Requests that differ in the key only *)

(** The same request with another [x-api-key] header. *)
Definition with_key (key : option string) (req : Request) : Request :=
  mkRequest (method req) (path req) key (query req) (payload req).

Definition key_blind (h : Handler) : Prop :=
  forall key req ps u st, h (with_key key req) ps u st = h req ps u st.

Definition layer_key_blind (layer : Layer) : Prop :=
  match layer with
  | Use h => key_blind h
  | UseError h => forall key e req, h e (with_key key req) = h e req
  | Route _ _ hs => Forall key_blind hs
  end.

(** ** Sample requests *)

Definition no_query : Query := mkQuery None None None None.

Definition request (verb : string) (segments : list string)
    (key : option string) (q : Query) (obj : gmap string value) : Request :=
  mkRequest verb segments key q (Parsed obj).

(** [PUT /api/products/2] with [{"price":750}] and the right key. *)
Definition put_price_750 : Request :=
  request "PUT" ["api"; "products"; "2"] (Some "secret-api-key") no_query
    {[ "price" := VNum 750 ]}.

(** [PUT /api/products/2] with [{"name":"Smartphone","price":750}]. *)
Definition name_price_750 : gmap string value :=
  {[ "name" := VStr "Smartphone"; "price" := VNum 750 ]}.

Definition put_name_price_750 : Request :=
  request "PUT" ["api"; "products"; "2"] (Some "secret-api-key") no_query
    name_price_750.

Definition put_valid_999 : Request :=
  request "PUT" ["api"; "products"; "999"] (Some "secret-api-key") no_query
    name_price_750.

(** An update that sets inStock to false and leaves the description out. *)
Definition out_of_stock : gmap string value :=
  {[ "name" := VStr "Phone"; "price" := VNum 799; "inStock" := VBool false ]}.

Definition put_out_of_stock : Request :=
  request "PUT" ["api"; "products"; "2"] (Some "secret-api-key") no_query
    out_of_stock.

(** [POST /api/products] with [{"name":"Kettle","price":30}]. *)
Definition kettle : gmap string value :=
  {[ "name" := VStr "Kettle"; "price" := VNum 30 ]}.

Definition post_kettle : Request :=
  request "POST" ["api"; "products"] (Some "secret-api-key") no_query kettle.

(** [DELETE /api/products/1] without an [x-api-key] header. *)
Definition delete_1_no_key : Request :=
  request "DELETE" ["api"; "products"; "1"] None no_query ∅.

(** [DELETE /api/products/999] with the right key. *)
Definition delete_999 : Request :=
  request "DELETE" ["api"; "products"; "999"] (Some "secret-api-key") no_query ∅.

(** [GET /api/products?limit=-1] *)
Definition get_limit_minus_1 : Request :=
  request "GET" ["api"; "products"] (Some "secret-api-key")
    (mkQuery None None None (Some (Fin (-1)))) ∅.

(** [GET /api/products?limit=99...9], with more digits than a double can
    hold: [parseInt] reads the limit as [Infinity]. *)
Definition get_limit_infinite : Request :=
  request "GET" ["api"; "products"] (Some "secret-api-key")
    (mkQuery None None None (Some PosInf)) ∅.

(** [GET /api/products?category=electronics&page=1&limit=1] *)
Definition get_electronics_1_1 : Request :=
  request "GET" ["api"; "products"] (Some "secret-api-key")
    (mkQuery (Some "electronics") None (Some (Fin 1)) (Some (Fin 1))) ∅.

(** [GET /api/products?category=] *)
Definition get_empty_category : Request :=
  request "GET" ["api"; "products"] (Some "secret-api-key")
    (mkQuery (Some "") None None None) ∅.

(** [GET /api/products?category=ELECTRONICS&search=phone] *)
Definition get_electronics_phone : Request :=
  request "GET" ["api"; "products"] (Some "secret-api-key")
    (mkQuery (Some "ELECTRONICS") (Some "phone") None None) ∅.

(** The seeded array and a kitchen record whose name is a number, as a
    create with ["name": 7] leaves it. *)
Definition with_numbered_name : list Product :=
  (seeded_products ++
   [ mkProduct "4" (VNum 7) (VStr "") (VNum 4) (VStr "kitchen")
       (VBool true) ])%list.

(** ** Routes and their effect *)

(** How a walk through a stack of quiet handlers ends, with the layer that
    answered: a middleware, the handlers of a route that matched the
    method and the path, an error handler, or Express itself. *)
Inductive Served (stack : list Layer) (req : Request) (u : string)
    (st : list Product) : list Product -> Response -> Prop :=
| served_by_use h st' r :
    In (Use h) stack ->
    h req [] u st = (st', Respond r) ->
    Served stack req u st st' r
| served_by_route verb pattern hs ps st' r :
    In (Route verb pattern hs) stack ->
    method req = verb ->
    match_path pattern (path req) = Some ps ->
    run_handlers hs req ps u st = (st', Respond r) ->
    Served stack req u st st' r
| served_by_error_handler h e :
    In (UseError h) stack ->
    Served stack req u st st (h e req)
| served_default_error e :
    Served stack req u st st (DefaultError e)
| served_default_not_found :
    Served stack req u st st DefaultNotFound.

(** What a request does to the array, with the route that did it. *)
Inductive Change (st : list Product) (u : string) (req : Request)
  : list Product -> Response -> Prop :=
| ch_none r :
    Change st u req st r
| ch_created :
    method req = "POST" -> path req = ["api"; "products"] ->
    ~ violation (body req) ->
    Change st u req (st ++ [newProduct u (body req)])%list
      (Json 201 (JProduct (newProduct u (body req))))
| ch_updated i k p :
    method req = "PUT" -> path req = ["api"; "products"; i] ->
    ~ violation (body req) ->
    list_find (fun p => id p = i) st = Some (k, p) ->
    Change st u req (<[k := assigned p (body req)]> st)
      (Json 200 (JProduct (assigned p (body req))))
| ch_deleted i :
    method req = "DELETE" -> path req = ["api"; "products"; i] ->
    In i (map id st) ->
    Change st u req
      (List.filter (fun p => negb (String.eqb (id p) i)) st)
      (SendEmpty 204).

(** A run of the server: the requests handled one after the other, each
    with the id [uuidv4()] would give it. *)
Fixpoint serve (st : list Product) (trace : list (string * Request))
  : list Product :=
  match trace with
  | [] => st
  | (u, req) :: rest => serve (fst (handle st u req)) rest
  end.

(** Two requests that differ at most in the [x-api-key] header. *)
Definition same_but_key (r r' : Request) : Prop :=
  method r = method r' /\ path r = path r' /\
  query r = query r' /\ payload r = payload r'.

(** The four verbs the file registers routes for. *)
Definition routed_verb (m : string) : bool :=
  String.eqb m "GET" || String.eqb m "POST" ||
  String.eqb m "PUT" || String.eqb m "DELETE".

(** ** More sample requests *)

(** [POST /api/products] with a body the JSON parser rejects, as
    body-parser reports it. *)
Definition post_malformed : Request :=
  mkRequest "POST" ["api"; "products"] None no_query
    (Malformed (mkError "SyntaxError" "Unexpected token } in JSON" (Some 400))).

(** [PATCH /api/products/1] *)
Definition patch_1 : Request :=
  request "PATCH" ["api"; "products"; "1"] None no_query name_price_750.

(** [GET /api/products/stats] *)
Definition get_stats : Request :=
  request "GET" ["api"; "products"; "stats"] None no_query ∅.

(** [GET /api/products/2] and [DELETE /api/products/2] *)
Definition get_2 : Request :=
  request "GET" ["api"; "products"; "2"] None no_query ∅.

Definition delete_2 : Request :=
  request "DELETE" ["api"; "products"; "2"] None no_query ∅.


(** An array whose categories are names of inherited properties, and one
    with a category that has no property key. *)
Definition inherited_named : list Product :=
  map (fun c => mkProduct "9" (VStr "Ledger") (VStr "") (VNum 5) (VStr c)
                  (VBool true))
      [ "constructor"; "toys"; "constructor"; "__proto__"; "constructor";
        "valueOf" ].

Definition keyless_named : list Product :=
  [ mkProduct "9" (VStr "Ledger") (VStr "") (VNum 5)
      (VObj [("toString", VNum 1)]) (VBool true) ].

(** [GET /api/products/0b7e], the id given to the Kettle. *)
Definition get_kettle : Request :=
  request "GET" ["api"; "products"; "0b7e"] None no_query ∅.

(** What the validator and the fallbacks of create and update guarantee of
    a stored record: a price that is a number above zero, a truthy name
    and category, and a description and an inStock that are not
    [undefined]. *)
Definition sound_record (p : Product) : Prop :=
  is_number (price p) = true /\ le_zero (price p) = false /\
  truthy (price p) = true /\
  truthy (name p) = true /\ truthy (category p) = true /\
  description p <> VUndefined /\ inStock p <> VUndefined.

(** [PUT /api/products/2] with a name that is not a string. *)
Definition put_numeric_name : Request :=
  request "PUT" ["api"; "products"; "2"] None no_query
    {[ "name" := VNum 7; "price" := VNum 1 ]}.

(** The [products] field of a listing, and nothing for other responses. *)
Definition listing_of (r : Response) : list Product :=
  match r with
  | Json _ (JListing _ _ _ listed) => listed
  | _ => []
  end.

(** [GET /api/products] with the filters and the limit of [q] and
    [page=k]. *)
Definition page_request (q : Query) (k : Z) : Request :=
  mkRequest "GET" ["api"; "products"] None
    (mkQuery (query_category q) (query_search q) (Some (Fin k)) (query_limit q))
    (Parsed ∅).

(** The listings of pages 1 to [n], one after the other. *)
Definition pages_through (st : list Product) (u : string) (q : Query)
    (n : nat) : list Product :=
  concat (map (fun k => listing_of (snd (handle st u (page_request q (Z.of_nat k)))))
              (seq 1 n)).

(** The query [?limit=2]. *)
Definition limit_2 : Query := mkQuery None None None (Some (Fin 2)).

(** A value that is not a string. *)
Definition not_a_string (v : value) : Prop := forall s, v <> VStr s.

(** [POST /api/products] with [{"name":"Crate","price":4,"category":7}]. *)
Definition crate : gmap string value :=
  {[ "name" := VStr "Crate"; "price" := VNum 4; "category" := VNum 7 ]}.

Definition post_crate : Request :=
  request "POST" ["api"; "products"] None no_query crate.

(** [GET /api/products?category=kitchen] *)
Definition get_kitchen : Request :=
  request "GET" ["api"; "products"] None
    (mkQuery (Some "kitchen") None None None) ∅.

(** What the listing takes from a filter parameter: nothing when it is
    absent or empty, and otherwise its lower-case form. *)
Definition filter_key (o : option string) : option string :=
  match o with
  | Some s => if String.eqb s "" then None else Some (toLowerCase s)
  | None => None
  end.


(** The one error the conversion of a category to a property key can
    raise. *)
Definition no_primitive : Error :=
  TypeError "Cannot convert object to primitive value".






(** [GET /api/products?category=ELECTRONICS] and its lower-case twin. *)
Definition get_upper : Request :=
  request "GET" ["api"; "products"] None
    (mkQuery (Some "ELECTRONICS") None None None) ∅.

Definition get_lower : Request :=
  request "GET" ["api"; "products"] (Some "k")
    (mkQuery (Some "electronics") (Some "") None None) ∅.

(** [PUT /api/products/999] with a body that has no name. *)
Definition put_invalid_999 : Request :=
  request "PUT" ["api"; "products"; "999"] None no_query
    {[ "price" := VNum 750 ]}.

(** [POST /api/products] with [{"name":"Kettle","price":"30"}]: the price
    is a string. *)
Definition post_string_price : Request :=
  request "POST" ["api"; "products"] None no_query
    {[ "name" := VStr "Kettle"; "price" := VStr "30" ]}.

(** [GET /api/products] with no query. *)
Definition get_all : Request :=
  request "GET" ["api"; "products"] None no_query ∅.

(** * Properties *)

Lemma answer_weaken layer stack req u st st' r :
  Answer stack req u st st' r -> Answer (layer :: stack) req u st st' r.
Proof.
  intros [h ps st1 r1 Hin Hh | h e Hin | e | ].
  - eapply by_handler; [| exact Hh].
    unfold stack_handlers. cbn. apply in_or_app. right. exact Hin.
  - apply by_error_handler. right. exact Hin.
  - apply by_default_error.
  - apply by_default_not_found.
Qed.

Lemma run_handlers_quiet hs req ps u st :
  Forall quiet hs ->
  match run_handlers hs req ps u st with
  | (st', Respond r) => exists h, In h hs /\ h req ps u st = (st', Respond r)
  | (st', _) => st' = st
  end.
Proof.
  induction 1 as [| h hs Hq _ IH]; cbn; [reflexivity |].
  specialize (Hq req ps u st).
  destruct (h req ps u st) as [st1 [| e | r]] eqn:Hh.
  - subst st1. destruct (run_handlers hs req ps u st) as [st2 [| e | r]]; auto.
    destruct IH as (h' & Hin & Hh'). exists h'. split; [right |]; assumption.
  - exact Hq.
  - exists h. split; [left; reflexivity | exact Hh].
Qed.

Lemma run_stack_answer stack pending req u st :
  Forall quiet (stack_handlers stack) ->
  Answer stack req u st
    (fst (run_stack stack pending req u st))
    (snd (run_stack stack pending req u st)).
Proof.
  revert pending. induction stack as [| layer stack IH]; intros pending Hq.
  - destruct pending; cbn; constructor.
  - unfold stack_handlers in Hq. cbn in Hq. apply Forall_app in Hq as [Hl Hs].
    assert (Hrest : forall pend,
      Answer (layer :: stack) req u st
        (fst (run_stack stack pend req u st))
        (snd (run_stack stack pend req u st))).
    { intros pend. apply answer_weaken, IH, Hs. }
    destruct pending as [e |], layer as [h | h | verb pattern hs]; cbn;
      try apply Hrest.
    + apply by_error_handler. left. reflexivity.
    + apply Forall_cons in Hl as [Hh _]. specialize (Hh req [] u st).
      destruct (h req [] u st) as [st1 [| e | r]] eqn:E.
      * subst st1. apply Hrest.
      * subst st1. apply Hrest.
      * cbn. eapply by_handler; [| exact E].
        unfold stack_handlers. cbn. left. reflexivity.
    + destruct (String.eqb (method req) verb); [| apply Hrest].
      destruct (match_path pattern (path req)) as [ps |]; [| apply Hrest].
      pose proof (run_handlers_quiet hs req ps u st Hl) as Hrun.
      destruct (run_handlers hs req ps u st) as [st1 [| e | r]].
      * subst st1. apply Hrest.
      * subst st1. apply Hrest.
      * destruct Hrun as (h & Hin & Hh). cbn. eapply by_handler; [| exact Hh].
        unfold stack_handlers. cbn. apply in_or_app. left. exact Hin.
Qed.

(** Every function registered in [app] is quiet. *)
Lemma app_quiet : Forall quiet (stack_handlers app).
Proof.
  unfold stack_handlers, app, routes. cbn.
  repeat apply Forall_cons_2; try apply Forall_nil_2; intros req ps u st.
  - reflexivity.
  - unfold json_body_parser. destruct (payload req); reflexivity.
  - exact I.
  - unfold get_products. destruct (filteredProducts _ _); [reflexivity | exact I].
  - unfold get_products_stats. destruct (tally _ _); [reflexivity | exact I].
  - unfold get_product. destruct (find _ _); [exact I | reflexivity].
  - unfold validateProduct. repeat (destruct (_ || _)); reflexivity.
  - exact I.
  - unfold validateProduct. repeat (destruct (_ || _)); reflexivity.
  - unfold put_product. destruct (list_find _ _) as [[k p] |]; [exact I | reflexivity].
  - unfold delete_product. destruct (negb _); [reflexivity | exact I].
Qed.

Lemma handle_answer st u req :
  Answer app req u st (fst (handle st u req)) (snd (handle st u req)).
Proof. apply run_stack_answer, app_quiet. Qed.

Lemma existsb_id_In i (st : list Product) :
  existsb (fun p => String.eqb (id p) i) st = true -> In i (map id st).
Proof.
  intros H. apply existsb_exists in H as (p & Hin & Heq).
  apply String.eqb_eq in Heq. subst i. apply in_map, Hin.
Qed.

(** The array after a request is the array before it, or the result of
    one create, one update or one delete. *)
Lemma handle_effect st u req :
  Effect st u req (fst (handle st u req)) (snd (handle st u req)).
Proof.
  destruct (handle_answer st u req) as [h ps st' r Hin Hh | h e Hin | e | ].
  - unfold stack_handlers, app, routes in Hin. cbn in Hin.
    repeat (destruct Hin as [<- | Hin]); try contradiction.
    + discriminate.
    + unfold json_body_parser in Hh. destruct (payload req); discriminate.
    + injection Hh as <- <-. apply eff_none. discriminate.
    + unfold get_products in Hh.
      destruct (filteredProducts _ _); [discriminate |].
      injection Hh as <- <-. apply eff_none. discriminate.
    + unfold get_products_stats in Hh. destruct (tally _ _); [discriminate |].
      injection Hh as <- <-. apply eff_none. discriminate.
    + unfold get_product in Hh. destruct (find _ _); [| discriminate].
      injection Hh as <- <-. apply eff_none. discriminate.
    + unfold validateProduct in Hh. repeat (destruct (_ || _)); discriminate.
    + injection Hh as <- <-. apply eff_created.
    + unfold validateProduct in Hh. repeat (destruct (_ || _)); discriminate.
    + unfold put_product in Hh.
      destruct (list_find _ _) as [[k p] |] eqn:Hfind; [| discriminate].
      injection Hh as <- <-. eapply eff_updated, Hfind.
    + unfold delete_product in Hh.
      destruct (existsb _ _) eqn:Hex; [| discriminate].
      injection Hh as <- <-. apply eff_deleted, existsb_id_In, Hex.
  - assert (h = error_handler) as ->.
    { unfold app, routes in Hin. cbn in Hin.
      repeat (destruct Hin as [Heq | Hin];
              [try discriminate Heq; injection Heq; auto |]).
      contradiction. }
    apply eff_none. unfold error_handler. discriminate.
  - apply eff_none. discriminate.
  - apply eff_none. discriminate.
Qed.

(** ** The routes, one at a time *)

Arguments prop : simpl never.
Arguments validateProduct : simpl never.
Arguments get_root : simpl never.
Arguments get_products : simpl never.
Arguments get_products_stats : simpl never.
Arguments get_product : simpl never.
Arguments post_products : simpl never.
Arguments put_product : simpl never.
Arguments delete_product : simpl never.

Ltac fix_request req :=
  destruct req as [verb segments key q pl];
  cbn [method path payload query body]; intros; subst;
  unfold handle, app, routes; cbn.

(** A body the parser rejects is answered by the error-handling
    middleware, whatever the route: it is the one error raised before that
    middleware in the stack. *)
Lemma handle_malformed st u req e :
  payload req = Malformed e ->
  handle st u req = (st, error_handler e req).
Proof. revert e. fix_request req. reflexivity. Qed.

Lemma handle_get_products st u req b :
  method req = "GET" -> path req = ["api"; "products"] ->
  payload req = Parsed b ->
  handle st u req =
  match get_products req [] u st with
  | (st', Respond r) => (st', r)
  | (st', Throw e) => (st', DefaultError e)
  | (st', Next) => (st', DefaultNotFound)
  end.
Proof.
  revert b. fix_request req.
  destruct (get_products _ _ _ _) as [st' [| e | r]]; reflexivity.
Qed.

Lemma handle_post_products st u req b :
  method req = "POST" -> path req = ["api"; "products"] ->
  payload req = Parsed b ->
  handle st u req =
  match validateProduct req [] u st with
  | (st', Next) =>
      match post_products req [] u st' with
      | (st'', Respond r) => (st'', r)
      | (st'', Throw e) => (st'', DefaultError e)
      | (st'', Next) => (st'', DefaultNotFound)
      end
  | (st', Throw e) => (st', DefaultError e)
  | (st', Respond r) => (st', r)
  end.
Proof.
  revert b. fix_request req.
  destruct (validateProduct _ _ _ _) as [st' [| e | r]]; reflexivity.
Qed.

Lemma handle_put_product st u req i b :
  method req = "PUT" -> path req = ["api"; "products"; i] ->
  payload req = Parsed b ->
  handle st u req =
  match validateProduct req [("id", i)] u st with
  | (st', Next) =>
      match put_product req [("id", i)] u st' with
      | (st'', Respond r) => (st'', r)
      | (st'', Throw e) => (st'', DefaultError e)
      | (st'', Next) => (st'', DefaultNotFound)
      end
  | (st', Throw e) => (st', DefaultError e)
  | (st', Respond r) => (st', r)
  end.
Proof.
  revert b. fix_request req.
  destruct (validateProduct _ _ _ _) as [st' [| e | r]]; try reflexivity.
  destruct (put_product _ _ _ _) as [st'' [| e | r]]; reflexivity.
Qed.

Lemma handle_delete_product st u req i b :
  method req = "DELETE" -> path req = ["api"; "products"; i] ->
  payload req = Parsed b ->
  handle st u req =
  match delete_product req [("id", i)] u st with
  | (st', Respond r) => (st', r)
  | (st', Throw e) => (st', DefaultError e)
  | (st', Next) => (st', DefaultNotFound)
  end.
Proof.
  revert b. fix_request req.
  destruct (delete_product _ _ _ _) as [st' [| e | r]]; reflexivity.
Qed.

(** Once the body is parsed, only the routes remain to be walked, with no
    error pending. *)
Lemma handle_parsed st u req b :
  payload req = Parsed b ->
  handle st u req = run_stack routes None req u st.
Proof.
  destruct req as [verb segments key q pl]. cbn [payload].
  intros ->. reflexivity.
Qed.

(** ** The middleware functions *)

(** [authenticate] lets a request through exactly when the header is the
    secret. *)
Lemma authenticate_spec req ps u st :
  (x_api_key req = Some "secret-api-key" ->
   authenticate req ps u st = (st, Next)) /\
  (x_api_key req <> Some "secret-api-key" ->
   authenticate req ps u st =
   (st, Throw (AuthError "Invalid or missing API key"))).
Proof.
  unfold authenticate. split.
  - intros ->. reflexivity.
  - intros Hne. destruct (x_api_key req) as [k |]; [| reflexivity].
    destruct (String.eqb k "secret-api-key") eqn:Hk.
    + apply String.eqb_eq in Hk. subst k. contradiction.
    + rewrite orb_true_r. reflexivity.
Qed.

Lemma run_handlers_key_blind hs key req ps u st :
  Forall key_blind hs ->
  run_handlers hs (with_key key req) ps u st = run_handlers hs req ps u st.
Proof.
  intros H. revert st. induction H as [| h hs Hh _ IH]; intros st; cbn.
  - reflexivity.
  - rewrite Hh. destruct (h req ps u st) as [st' [| e | r]]; auto.
Qed.

Lemma run_stack_key_blind stack key pending req u st :
  Forall layer_key_blind stack ->
  run_stack stack pending (with_key key req) u st =
  run_stack stack pending req u st.
Proof.
  intros H. revert pending st.
  induction H as [| layer stack Hl _ IH]; intros pending st; [reflexivity |].
  destruct pending as [e |], layer as [h | h | verb pattern hs]; cbn in *; auto.
  - rewrite Hl. reflexivity.
  - rewrite Hl. destruct (h req [] u st) as [st' [| e | r]]; auto.
  - destruct (String.eqb (method req) verb); auto.
    destruct (match_path pattern (path req)) as [ps |]; auto.
    rewrite run_handlers_key_blind by exact Hl.
    destruct (run_handlers hs req ps u st) as [st' [| e | r]]; auto.
Qed.

(** No layer of [app] reads the [x-api-key] header: the response and the
    array after a request do not depend on it. *)
Lemma handle_ignores_key key st u req :
  handle st u (with_key key req) = handle st u req.
Proof.
  apply run_stack_key_blind. unfold app, routes.
  repeat apply Forall_cons_2; try apply Forall_nil_2; cbn;
    repeat apply Forall_cons_2; try apply Forall_nil_2;
    try (intros k r ps' u' st'; reflexivity).
  intros k e r. reflexivity.
Qed.

Lemma validateProduct_outcome req ps u st :
  validateProduct req ps u st = (st, Next) \/
  exists msg, validateProduct req ps u st = (st, Throw (ValidationError msg)).
Proof.
  unfold validateProduct. repeat (destruct (_ || _)); eauto.
Qed.

Lemma validateProduct_throws req ps u st :
  method req = "POST" \/ method req = "PUT" ->
  violation (body req) ->
  exists msg, validateProduct req ps u st = (st, Throw (ValidationError msg)).
Proof.
  intros Hm Hv. unfold validateProduct.
  assert (String.eqb (method req) "POST" || String.eqb (method req) "PUT" = true)
    as -> by (destruct Hm as [-> | ->]; reflexivity).
  destruct (negb (truthy (prop (body req) "name"))
            || negb (truthy (prop (body req) "price"))) eqn:H1; [eauto |].
  destruct (negb (is_number (prop (body req) "price"))
            || le_zero (prop (body req) "price")) eqn:H2; [eauto |].
  exfalso. apply orb_false_elim in H1 as [Hn Hp], H2 as [Hi Hz].
  apply negb_false_iff in Hn, Hp, Hi.
  destruct Hv as [H | [H | [H | H]]]; congruence.
Qed.

Lemma validateProduct_passes req ps u st :
  ~ violation (body req) ->
  validateProduct req ps u st = (st, Next).
Proof.
  intros Hv. unfold validateProduct.
  destruct (_ || _); [| reflexivity].
  destruct (truthy (prop (body req) "name")) eqn:Hn;
    [| exfalso; apply Hv; left; assumption].
  destruct (truthy (prop (body req) "price")) eqn:Hp;
    [| exfalso; apply Hv; right; left; assumption].
  destruct (is_number (prop (body req) "price")) eqn:Hi;
    [| exfalso; apply Hv; right; right; left; assumption].
  destruct (le_zero (prop (body req) "price")) eqn:Hz;
    [exfalso; apply Hv; right; right; right; assumption |].
  reflexivity.
Qed.

(** C6: on a POST or PUT request the validator raises a ValidationError
    (status 400) exactly when the name is absent or falsy, or the price is
    absent or falsy, or the price is not a number, or the price is at most
    zero; a price of 0 is rejected; with no violation it calls [next()]
    and leaves the request and the array as they are. *)
Theorem C6_validator_rejects_exactly req ps u st :
  method req = "POST" \/ method req = "PUT" ->
  (violation (body req) <->
   exists e, validateProduct req ps u st = (st, Throw e)) /\
  (forall st' e, validateProduct req ps u st = (st', Throw e) ->
     st' = st /\ err_name e = "ValidationError" /\ statusCode e = Some 400) /\
  (prop (body req) "price" = VNum 0 -> violation (body req)) /\
  (~ violation (body req) -> validateProduct req ps u st = (st, Next)).
Proof.
  intros Hm. repeat split.
  - intros Hv. destruct (validateProduct_throws req ps u st Hm Hv) as [msg H].
    eauto.
  - intros [e He]. destruct (truthy (prop (body req) "name")) eqn:Hn;
      [| left; assumption].
    destruct (truthy (prop (body req) "price")) eqn:Hp;
      [| right; left; assumption].
    destruct (is_number (prop (body req) "price")) eqn:Hi;
      [| right; right; left; assumption].
    destruct (le_zero (prop (body req) "price")) eqn:Hz;
      [right; right; right; assumption |].
    rewrite validateProduct_passes in He; [discriminate |].
    intros [H | [H | [H | H]]]; congruence.
  - destruct (validateProduct_outcome req ps u st) as [E | [msg E]];
      rewrite E in H; congruence.
  - destruct (validateProduct_outcome req ps u st) as [E | [msg E]];
      rewrite E in H; [discriminate |]. injection H as _ <-. reflexivity.
  - destruct (validateProduct_outcome req ps u st) as [E | [msg E]];
      rewrite E in H; [discriminate |]. injection H as _ <-. reflexivity.
  - intros Hz. right. left. rewrite Hz. reflexivity.
  - apply validateProduct_passes.
Qed.

(** C7: a POST /api/products whose body passes validation appends one
    record and answers 201 with that record.  Its id is the generated one,
    name and price are the body's, description falls back to the empty
    string, category to "uncategorized", and inStock to true when the body
    has none. *)
Theorem C7_create_appends_defaulted_record st u req b :
  method req = "POST" -> path req = ["api"; "products"] ->
  payload req = Parsed b -> ~ violation b ->
  let created := newProduct u b in
  handle st u req = ((st ++ [created])%list, Json 201 (JProduct created)) /\
  id created = u /\
  name created = prop b "name" /\
  price created = prop b "price" /\
  description created =
    (if truthy (prop b "description") then prop b "description" else VStr "") /\
  category created =
    (if truthy (prop b "category") then prop b "category"
     else VStr "uncategorized") /\
  (b !! "description" = None -> description created = VStr "") /\
  (b !! "category" = None -> category created = VStr "uncategorized") /\
  (b !! "inStock" = None -> inStock created = VBool true) /\
  (forall v, b !! "inStock" = Some v -> v <> VUndefined -> inStock created = v).
Proof.
  intros Hm Hp Hb Hv created.
  assert (Hbody : body req = b) by (unfold body; rewrite Hb; reflexivity).
  split.
  { rewrite (handle_post_products st u req b Hm Hp Hb).
    rewrite validateProduct_passes by (rewrite Hbody; exact Hv).
    unfold post_products. rewrite Hbody. reflexivity. }
  repeat split; cbn; unfold prop.
  - intros ->. reflexivity.
  - intros ->. reflexivity.
  - intros ->. reflexivity.
  - intros v -> Hne. cbn. destruct v; try reflexivity. contradiction.
Qed.

Lemma list_find_id (i : string) (st : list Product) :
  In i (map id st) ->
  exists k p, list_find (fun p => id p = i) st = Some (k, p).
Proof.
  intros Hin. apply in_map_iff in Hin as (p & Hid & Hp).
  destruct (list_find_elem_of (fun p => id p = i) st p) as [[k q] Hf].
  - apply list_elem_of_In. exact Hp.
  - exact Hid.
  - eauto.
Qed.

(** The update route on a body that passes validation and an id that is in
    the array. *)
Lemma handle_put_found st u req i b k p :
  method req = "PUT" -> path req = ["api"; "products"; i] ->
  payload req = Parsed b -> ~ violation b ->
  list_find (fun p => id p = i) st = Some (k, p) ->
  handle st u req =
  (<[k := assigned p b]> st, Json 200 (JProduct (assigned p b))).
Proof.
  intros Hm Hp Hb Hv Hf.
  assert (Hbody : body req = b) by (unfold body; rewrite Hb; reflexivity).
  rewrite (handle_put_product st u req i b Hm Hp Hb).
  rewrite validateProduct_passes by (rewrite Hbody; exact Hv).
  unfold put_product. cbn [param String.eqb Ascii.eqb Bool.eqb].
  rewrite Hf, Hbody. reflexivity.
Qed.

(** C8: an update with a valid body and an existing id rewrites the first
    record with that id, in place.  Name, description, price and category
    take the body's value when it is truthy and keep their old value
    otherwise; inStock takes the body's value whenever the body has one,
    [false] included; the id and every other record stay as they were. *)
Theorem C8_update_merges_fields st u req i b :
  method req = "PUT" -> path req = ["api"; "products"; i] ->
  payload req = Parsed b -> ~ violation b -> In i (map id st) ->
  exists k p,
    st !! k = Some p /\ id p = i /\
    (forall j q, st !! j = Some q -> (j < k)%nat -> id q <> i) /\
    let p' := assigned p b in
    handle st u req = (<[k := p']> st, Json 200 (JProduct p')) /\
    id p' = id p /\
    name p' = (if truthy (prop b "name") then prop b "name" else name p) /\
    description p' =
      (if truthy (prop b "description") then prop b "description"
       else description p) /\
    price p' = (if truthy (prop b "price") then prop b "price" else price p) /\
    category p' =
      (if truthy (prop b "category") then prop b "category" else category p) /\
    (prop b "inStock" = VUndefined -> inStock p' = inStock p) /\
    (prop b "inStock" <> VUndefined -> inStock p' = prop b "inStock") /\
    (prop b "inStock" = VBool false -> inStock p' = VBool false) /\
    length (<[k := p']> st) = length st /\
    <[k := p']> st !! k = Some p' /\
    (forall j, j <> k -> <[k := p']> st !! j = st !! j).
Proof.
  intros Hm Hp Hb Hv Hin.
  destruct (list_find_id i st Hin) as (k & p & Hf).
  exists k, p. pose proof Hf as Hf'.
  apply list_find_Some in Hf' as (Hk & Hid & Hfirst).
  repeat split; try assumption.
  - apply (handle_put_found st u req i b k p); assumption.
  - cbn. intros ->. reflexivity.
  - cbn. intros Hne. destruct (prop b "inStock"); try reflexivity. contradiction.
  - cbn. intros ->. reflexivity.
  - apply length_insert.
  - apply list_lookup_insert_eq. eapply lookup_lt_Some, Hk.
  - intros j Hne. apply list_lookup_insert_ne. congruence.
Qed.

(** C2, as the code has it: a PUT body must carry a truthy name and a
    positive numeric price, or the validator raises a ValidationError and
    nothing is updated; a body that carries both is accepted and may leave
    out description, category and inStock, which then keep their values. *)
Theorem C2_put_needs_name_and_price st u req i b :
  method req = "PUT" -> path req = ["api"; "products"; i] ->
  payload req = Parsed b -> In i (map id st) ->
  (violation b ->
   exists msg, handle st u req = (st, DefaultError (ValidationError msg))) /\
  (~ violation b ->
   exists k p,
     list_find (fun p => id p = i) st = Some (k, p) /\
     handle st u req =
       (<[k := assigned p b]> st, Json 200 (JProduct (assigned p b))) /\
     name (assigned p b) = prop b "name" /\
     price (assigned p b) = prop b "price" /\
     (b !! "description" = None ->
      description (assigned p b) = description p) /\
     (b !! "category" = None -> category (assigned p b) = category p) /\
     (b !! "inStock" = None -> inStock (assigned p b) = inStock p)).
Proof.
  intros Hm Hp Hb Hin.
  assert (Hbody : body req = b) by (unfold body; rewrite Hb; reflexivity).
  split.
  - intros Hv. rewrite (handle_put_product st u req i b Hm Hp Hb).
    destruct (validateProduct_throws req [("id", i)] u st) as [msg ->];
      [right; exact Hm | rewrite Hbody; exact Hv |].
    exists msg. reflexivity.
  - intros Hv. destruct (list_find_id i st Hin) as (k & p & Hf).
    exists k, p. split; [exact Hf |].
    split; [apply (handle_put_found st u req i b k p); assumption |].
    assert (Hn : truthy (prop b "name") = true).
    { destruct (truthy (prop b "name")) eqn:E; [reflexivity |].
      exfalso. apply Hv. left. exact E. }
    assert (Hpr : truthy (prop b "price") = true).
    { destruct (truthy (prop b "price")) eqn:E; [reflexivity |].
      exfalso. apply Hv. right. left. exact E. }
    cbn. unfold or_else. rewrite Hn, Hpr. unfold prop.
    repeat split; intros ->; reflexivity.
Qed.

(** C1, at a request without the header: the delete is carried out and
    answered 204; no AuthError is raised, because [authenticate] is in no
    layer of [app]. *)
Theorem C1_request_without_key_is_served :
  handle seeded_products "u" delete_1_no_key =
    ([ mkProduct "2" (VStr "Smartphone")
         (VStr "Latest model with 128GB storage")
         (VNum 800) (VStr "electronics") (VBool true);
       mkProduct "3" (VStr "Coffee Maker")
         (VStr "Programmable coffee maker with timer")
         (VNum 50) (VStr "kitchen") (VBool false) ],
     SendEmpty 204) /\
  authenticate delete_1_no_key [("id", "1")] "u" seeded_products =
    (seeded_products, Throw (AuthError "Invalid or missing API key")).
Proof. split; reflexivity. Qed.

(** The error-handling middleware, on the error it is given: the document
    [{error: {name, message, status}}], with the error's statusCode, or
    500 when it has none. *)
Lemma error_handler_envelope err req :
  error_handler err req =
    Json (status_of err)
      (JError (err_name err) (err_message err) (status_of err)) /\
  (forall c, statusCode err = Some c -> c <> 0 -> status_of err = c) /\
  (statusCode err = None -> status_of err = 500).
Proof.
  split; [reflexivity |]. unfold status_of. split.
  - intros c -> Hc. destruct (Z.eqb_spec c 0); [contradiction | reflexivity].
  - intros ->. reflexivity.
Qed.

(** No error raised by the validator or by a route handler is turned into
    the error document: once the body is parsed, the error-handling
    middleware lies behind in the stack. *)
Lemma route_errors_not_enveloped st u req b s n m c :
  payload req = Parsed b ->
  snd (handle st u req) <> Json s (JError n m c).
Proof.
  intros Hb. rewrite (handle_parsed st u req b Hb).
  assert (Hq : Forall quiet (stack_handlers routes)).
  { pose proof app_quiet as H. unfold stack_handlers, app in H. cbn in H.
    apply Forall_cons in H as [_ H]. apply Forall_cons in H as [_ H]. exact H. }
  destruct (run_stack_answer routes None req u st Hq)
    as [h ps st' r Hin Hh | h e Hin | e | ]; try discriminate.
  - unfold stack_handlers, routes in Hin. cbn in Hin.
    repeat (destruct Hin as [<- | Hin]); try contradiction.
    + injection Hh as <- <-. discriminate.
    + unfold get_products in Hh.
      destruct (filteredProducts _ _); [discriminate |].
      injection Hh as <- <-. discriminate.
    + unfold get_products_stats in Hh. destruct (tally _ _); [discriminate |].
      injection Hh as <- <-. discriminate.
    + unfold get_product in Hh. destruct (find _ _); [| discriminate].
      injection Hh as <- <-. discriminate.
    + unfold validateProduct in Hh. repeat (destruct (_ || _)); discriminate.
    + injection Hh as <- <-. discriminate.
    + unfold validateProduct in Hh. repeat (destruct (_ || _)); discriminate.
    + unfold put_product in Hh.
      destruct (list_find _ _) as [[k p] |]; [| discriminate].
      injection Hh as <- <-. discriminate.
    + unfold delete_product in Hh.
      destruct (negb _); [discriminate |].
      injection Hh as <- <-. discriminate.
  - exfalso. unfold routes in Hin. cbn in Hin.
    repeat (destruct Hin as [Heq | Hin]; [discriminate Heq |]). contradiction.
Qed.

(** C3, at DELETE /api/products/999: the NotFoundError of the handler is
    left to Express' built-in handler; the response is not the error
    document the error-handling middleware would have produced for it. *)
Theorem C3_route_error_bypasses_error_handler :
  handle seeded_products "u" delete_999 =
    (seeded_products, DefaultError (NotFoundError "Product not found")) /\
  error_handler (NotFoundError "Product not found") delete_999 =
    Json 404 (JError "NotFoundError" "Product not found" 404) /\
  snd (handle seeded_products "u" delete_999) <>
    error_handler (NotFoundError "Product not found") delete_999.
Proof.
  split; [reflexivity |]. split; [reflexivity |].
  intros H. vm_compute in H. discriminate.
Qed.

(** C10: the writing routes are atomic on failure.  When the handlers of
    POST, PUT or DELETE raise an error, the array they leave is the array
    they found; and for the application as a whole, a request answered
    with a failure leaves the array as it was. *)
Theorem C10_failure_leaves_store st u req :
  (forall hs ps st' e,
     In hs mutating_routes ->
     run_handlers hs req ps u st = (st', Throw e) -> st' = st) /\
  (is_failure (snd (handle st u req)) = true -> fst (handle st u req) = st).
Proof.
  split.
  - intros hs ps st' e Hin Hrun.
    assert (Hq : Forall quiet hs).
    { pose proof app_quiet as H. unfold stack_handlers, app, routes in H.
      cbn in H. rewrite !Forall_cons in H.
      unfold mutating_routes in Hin. cbn in Hin.
      destruct Hin as [<- | [<- | [<- | []]]];
        repeat apply Forall_cons_2; try apply Forall_nil_2; tauto. }
    pose proof (run_handlers_quiet hs req ps u st Hq) as H.
    rewrite Hrun in H. exact H.
  - intros Hfail.
    destruct (handle_effect st u req) as [r _ | | i k p _ | i _];
      try reflexivity; discriminate.
Qed.

Lemma ids_filter_NoDup (f : Product -> bool) st :
  NoDup (ids st) -> NoDup (ids (List.filter f st)).
Proof.
  unfold ids. induction st as [| p st IH]; cbn; [auto |].
  intros H. apply NoDup_cons in H as [Hp Hst].
  destruct (f p); cbn; [| auto].
  apply NoDup_cons. split; [| auto].
  intros Hin. apply Hp. apply list_elem_of_In in Hin. apply list_elem_of_In.
  apply in_map_iff in Hin as (q & Hq & Hin). apply in_map_iff.
  exists q. split; [exact Hq |]. apply filter_In in Hin. tauto.
Qed.

Lemma ids_assigned k p b st :
  st !! k = Some p -> ids (<[k := assigned p b]> st) = ids st.
Proof.
  intros Hk. unfold ids. rewrite list_fmap_insert. cbn.
  apply list_insert_id. rewrite list_lookup_fmap, Hk. reflexivity.
Qed.

(** C9: if the generated id is not in the array, a request leaves an array
    without repeated ids when it found one; so no reachable array has two
    records with the same id; and the record a create returns carries the
    generated id, which no earlier record has. *)
Theorem C9_ids_stay_unique :
  (forall st u req,
     NoDup (ids st) -> ~ In u (ids st) ->
     NoDup (ids (fst (handle st u req)))) /\
  (forall st, reachable st -> NoDup (ids st)) /\
  (forall st u req p,
     ~ In u (ids st) ->
     snd (handle st u req) = Json 201 (JProduct p) ->
     fst (handle st u req) = (st ++ [p])%list /\
     id p = u /\ ~ In (id p) (ids st)).
Proof.
  assert (Hstep : forall st u req,
     NoDup (ids st) -> ~ In u (ids st) ->
     NoDup (ids (fst (handle st u req)))).
  { intros st u req Hnd Hu.
    destruct (handle_effect st u req) as [r _ | | i k p Hf | i _].
    - exact Hnd.
    - unfold ids. rewrite map_app. cbn. apply NoDup_app.
      split; [exact Hnd |]. split.
      + intros x Hx [-> | []]%list_elem_of_In. apply Hu, list_elem_of_In, Hx.
      + apply NoDup_singleton.
    - apply list_find_Some in Hf as (Hk & _ & _).
      rewrite (ids_assigned k p (body req) st Hk). exact Hnd.
    - apply ids_filter_NoDup, Hnd. }
  split; [exact Hstep |]. split.
  - induction 1 as [| st u req _ IH Hu].
    + unfold ids. cbn. repeat (apply NoDup_cons; split);
        [| | | apply NoDup_nil; exact I];
        rewrite list_elem_of_In; cbn; intuition discriminate.
    + apply Hstep; assumption.
  - intros st u req p Hu Hr.
    destruct (handle_effect st u req) as [r Hne | | i k q _ | i _].
    + exfalso. exact (Hne p Hr).
    + injection Hr as <-. repeat split. exact Hu.
    + discriminate.
    + discriminate.
Qed.

Lemma ceil_div_bounds a b :
  0 < b -> (ceil_div a b - 1) * b < a <= ceil_div a b * b.
Proof.
  intros Hb. unfold ceil_div.
  pose proof (Z.div_mod (- a) b ltac:(lia)) as Hdm.
  pose proof (Z.mod_pos_bound (- a) b Hb) as Hr.
  nia.
Qed.

Lemma ceil_div_bounds_neg a b :
  b < 0 -> ceil_div a b * b <= a < (ceil_div a b - 1) * b.
Proof.
  intros Hb. unfold ceil_div.
  pose proof (Z.div_mod (- a) b ltac:(lia)) as Hdm.
  pose proof (Z.mod_neg_bound (- a) b Hb) as Hr.
  nia.
Qed.

Lemma js_slice_length {A : Type} (l : list A) (a b : Z) :
  a <= b -> Z.of_nat (length (js_slice l (Some (Fin a)) (Some (Fin b)))) <= b - a.
Proof.
  intros Hab. unfold js_slice, slice_index. rewrite length_take, length_drop.
  destruct (Z.ltb_spec a 0), (Z.ltb_spec b 0); lia.
Qed.

Lemma js_slice_beyond {A : Type} (l : list A) (a : Z) finish :
  Z.of_nat (length l) <= a -> js_slice l (Some (Fin a)) finish = [].
Proof.
  intros Ha. unfold js_slice. cbn [slice_index].
  destruct (Z.ltb_spec a 0); [lia |].
  rewrite drop_ge by lia. apply take_nil.
Qed.

Lemma js_slice_from_infinity {A : Type} (l : list A) finish :
  js_slice l (Some PosInf) finish = [].
Proof.
  unfold js_slice. cbn [slice_index].
  rewrite drop_ge by lia. apply take_nil.
Qed.

Lemma js_slice_to_minus_infinity {A : Type} (l : list A) start :
  js_slice l start (Some NegInf) = [].
Proof.
  unfold js_slice. cbn [slice_index].
  assert (H : 0 <= slice_index (Z.of_nat (length l)) start).
  { unfold slice_index. destruct start as [[z | |] |]; try lia.
    destruct (Z.ltb_spec z 0); lia. }
  replace (Z.to_nat (0 - slice_index (Z.of_nat (length l)) start))
    with 0%nat by lia.
  reflexivity.
Qed.

Lemma js_slice_segment {A : Type} (l : list A) (a n : Z) :
  0 <= a -> 0 <= n ->
  js_slice l (Some (Fin a)) (Some (Fin (a + n))) =
  take (Z.to_nat n) (drop (Z.to_nat a) l).
Proof.
  intros Ha Hn. unfold js_slice, slice_index.
  destruct (Z.ltb_spec a 0); [lia |].
  destruct (Z.ltb_spec (a + n) 0); [lia |].
  destruct (Z_le_gt_dec (Z.of_nat (length l)) a) as [Hge | Hlt].
  - rewrite !drop_ge by lia. rewrite !take_nil. reflexivity.
  - replace (Z.min a (Z.of_nat (length l))) with a by lia.
    destruct (Z_le_gt_dec (Z.of_nat (length l)) (a + n)) as [Hge' | Hlt'].
    + rewrite !take_ge; [reflexivity | |]; rewrite length_drop; lia.
    + f_equal. lia.
Qed.

Lemma times_infinity_positive (l : Z) :
  0 < l ->
  times PosInf (Fin l) = Some PosInf /\ times NegInf (Fin l) = Some NegInf.
Proof.
  intros Hl. unfold times. cbn [sign]. rewrite (Z.sgn_pos l Hl).
  split; reflexivity.
Qed.

Lemma int_or_not_zero n (d : xint) : d <> Fin 0 -> int_or n d <> Fin 0.
Proof.
  intros Hd. unfold int_or. destruct n as [[z | |] |]; try discriminate;
    [| exact Hd].
  destruct (Z.eqb_spec z 0); [exact Hd | congruence].
Qed.

Lemma handle_listing st u req b F :
  method req = "GET" -> path req = ["api"; "products"] ->
  payload req = Parsed b ->
  filteredProducts (query req) st = inr F ->
  handle st u req =
  (st, Json 200
         (JListing (Z.of_nat (length F)) (int_or (query_page (query req)) 1)
            (pages_of (Z.of_nat (length F))
               (int_or (query_limit (query req)) 10))
            (js_slice F
               (times (minus_one (int_or (query_page (query req)) 1))
                  (int_or (query_limit (query req)) 10))
               (times (int_or (query_page (query req)) 1)
                  (int_or (query_limit (query req)) 10))))).
Proof.
  intros Hm Hp Hb HF. rewrite (handle_get_products st u req b Hm Hp Hb).
  unfold get_products. rewrite HF. reflexivity.
Qed.

(** The slice of a page when the limit is a positive integer. *)
Lemma page_slice_positive_limit (F : list Product) (page : xint) (l : Z) :
  1 <= l ->
  let listed := js_slice F (times (minus_one page) (Fin l)) (times page (Fin l)) in
  Z.of_nat (length listed) <= l /\
  (xlt (ceil_div (Z.of_nat (length F)) l) page -> listed = []) /\
  (forall p, page = Fin p -> 1 <= p ->
     listed = take (Z.to_nat l) (drop (Z.to_nat ((p - 1) * l)) F)).
Proof.
  intros Hl listed. subst listed.
  destruct (times_infinity_positive l ltac:(lia)) as [Hpos Hneg].
  pose proof (ceil_div_bounds (Z.of_nat (length F)) l ltac:(lia)) as Hc.
  destruct page as [p | |]; cbn [minus_one].
  - cbn [times]. split; [| split].
    + pose proof (js_slice_length F ((p - 1) * l) (p * l) ltac:(lia)) as H.
      lia.
    + cbn [xlt]. intros Hbeyond. apply js_slice_beyond.
      assert (ceil_div (Z.of_nat (length F)) l * l <= (p - 1) * l)
        by (apply Z.mul_le_mono_nonneg_r; lia).
      lia.
    + intros q [= <-] Hq.
      replace (p * l) with ((p - 1) * l + l) by lia.
      apply js_slice_segment; [apply Z.mul_nonneg_nonneg |]; lia.
  - rewrite Hpos, js_slice_from_infinity. cbn.
    split; [lia |]. split; [reflexivity | discriminate].
  - rewrite Hneg, js_slice_to_minus_infinity. cbn.
    split; [lia |]. split; [contradiction | discriminate].
Qed.

(** C4, as the code has it: whenever the two filters complete, with F the
    array they leave, the listing reports the size of F as total, the
    ceiling of total/limit as pages (0 for an infinite limit) and the
    slice of F from (page-1)*limit to page*limit as products.  With a
    limit of at least 1 the slice has at most limit records.  With a
    limit that is an integer of at least 1, the slice is the plain segment
    of F for a page that is an integer of at least 1, and is empty, with
    no error, for every page beyond pages. *)
Theorem C4_pagination_with_positive_limit st u req b F :
  method req = "GET" -> path req = ["api"; "products"] ->
  payload req = Parsed b ->
  filteredProducts (query req) st = inr F ->
  let page := int_or (query_page (query req)) 1 in
  let limit := int_or (query_limit (query req)) 10 in
  let total := Z.of_nat (length F) in
  let pages := pages_of total limit in
  let listed := js_slice F (times (minus_one page) limit) (times page limit) in
  handle st u req = (st, Json 200 (JListing total page pages listed)) /\
  limit <> Fin 0 /\
  (forall l, limit = Fin l -> 0 < l -> (pages - 1) * l < total <= pages * l) /\
  (forall l, limit = Fin l -> l < 0 -> pages * l <= total < (pages - 1) * l) /\
  (limit = PosInf \/ limit = NegInf -> pages = 0) /\
  (xle 1 limit -> xle (Z.of_nat (length listed)) limit) /\
  (forall l, limit = Fin l -> 1 <= l ->
     listing_as_claimed st u req F /\
     (forall p, page = Fin p -> 1 <= p ->
        listed = take (Z.to_nat l) (drop (Z.to_nat ((p - 1) * l)) F))).
Proof.
  intros Hm Hp Hb HF page limit total pages listed.
  pose proof (handle_listing st u req b F Hm Hp Hb HF) as Hh.
  split; [exact Hh |].
  split; [apply int_or_not_zero; discriminate |].
  split; [| split; [| split; [| split]]].
  - intros l Hlim Hl. subst pages. rewrite Hlim. cbn [pages_of].
    apply ceil_div_bounds, Hl.
  - intros l Hlim Hl. subst pages. rewrite Hlim. cbn [pages_of].
    apply ceil_div_bounds_neg, Hl.
  - intros [Hlim | Hlim]; subst pages; rewrite Hlim; reflexivity.
  - intros Hone. subst listed. destruct limit as [l | |] eqn:Hlim.
    + cbn [xle] in *.
      apply (page_slice_positive_limit F page l Hone).
    + destruct (Z.of_nat _); exact I.
    + destruct Hone.
  - intros l Hlim Hl.
    destruct (page_slice_positive_limit F page l Hl) as (Hlen & Hbeyond & Hseg).
    split.
    + exists listed. split; [exact Hh |]. split; [reflexivity |].
      subst listed pages. fold limit. rewrite Hlim. cbn [xle pages_of].
      split; [exact Hlen | exact Hbeyond].
    + subst listed. rewrite Hlim. exact Hseg.
Qed.

Lemma append_cons c (s t : string) :
  (String c s ++ t)%string = String c (s ++ t)%string.
Proof. reflexivity. Qed.

Lemma prefix_spec t s :
  String.prefix t s = true <-> exists post, s = (t ++ post)%string.
Proof.
  revert s. induction t as [| c t IH]; intros s.
  - split; [intros _; exists s; reflexivity | intros _; destruct s; reflexivity].
  - destruct s as [| d s]; cbn.
    + split; [discriminate | intros [post H]; discriminate].
    + destruct (Ascii.ascii_dec c d) as [-> | Hne].
      * rewrite IH. split; intros [post H]; exists post;
          rewrite append_cons in *; congruence.
      * split; [discriminate |].
        intros [post H]. rewrite append_cons in H. congruence.
Qed.

(** [includes s t] holds exactly when [t] is a substring of [s]. *)
Lemma includes_spec s t :
  includes s t = true <-> exists pre post, s = (pre ++ t ++ post)%string.
Proof.
  induction s as [| c s IH].
  - cbn [includes]. rewrite orb_false_r, prefix_spec. split.
    + intros [post H]. exists "", post. exact H.
    + intros (pre & post & H). destruct pre; [| discriminate].
      exists post. exact H.
  - cbn [includes]. rewrite orb_true_iff, prefix_spec, IH. split.
    + intros [[post H] | (pre & post & H)].
      * exists "", post. exact H.
      * exists (String c pre), post. rewrite append_cons. congruence.
    + intros (pre & post & H). destruct pre as [| d pre].
      * left. exists post. exact H.
      * right. exists pre, post. rewrite append_cons in H. congruence.
Qed.

Lemma filter_throwing_total {A : Type} (f : A -> Error + bool)
    (g : A -> bool) (l : list A) :
  Forall (fun x => f x = inr (g x)) l ->
  filter_throwing f l = inr (List.filter g l).
Proof.
  induction 1 as [| x l Hx _ IH]; cbn; [reflexivity |].
  rewrite Hx, IH. reflexivity.
Qed.

Lemma filter_by_category_strings q X st :
  query_category q = Some X -> X <> "" ->
  Forall string_category st ->
  filter_by_category q st = inr (List.filter (category_equals_ci X) st).
Proof.
  intros HX Hne Hst. unfold filter_by_category. rewrite HX.
  destruct (String.eqb_spec X "") as [HX' | _]; [contradiction |].
  apply filter_throwing_total.
  eapply Forall_impl; [exact Hst |].
  intros p (c & Hc). unfold category_is, category_equals_ci.
  rewrite Hc. reflexivity.
Qed.

Lemma includes_empty s : includes s "" = true.
Proof. destruct s as [| c [| d s]]; reflexivity. Qed.

Lemma filter_by_search_strings q l :
  (forall y, query_search q = Some y -> Forall string_name l) ->
  filter_by_search q l =
  inr (List.filter
         (fun p => match query_search q with
                   | Some y => name_contains_ci y p
                   | None => true
                   end) l).
Proof.
  intros Hl. unfold filter_by_search.
  destruct (query_search q) as [y |].
  - specialize (Hl y eq_refl).
    destruct (String.eqb_spec y "") as [-> | Hne].
    + f_equal. symmetry. apply forallb_filter_id.
      apply forallb_forall. intros p Hp.
      rewrite Forall_forall in Hl.
      destruct (Hl p) as (n & Hn); [apply list_elem_of_In, Hp |].
      unfold name_contains_ci. rewrite Hn, toLowerCase_empty.
      apply includes_empty.
    + apply filter_throwing_total.
      eapply Forall_impl; [exact Hl |].
      intros p (n & Hn). unfold name_includes, name_contains_ci.
      rewrite Hn. reflexivity.
  - f_equal. symmetry. apply forallb_filter_id.
    apply forallb_forall. reflexivity.
Qed.

Lemma filter_filter_and {A : Type} (f g : A -> bool) (l : list A) :
  List.filter g (List.filter f l) = List.filter (fun x => f x && g x) l.
Proof.
  induction l as [| x l IH]; cbn; [reflexivity |].
  destruct (f x); cbn; [destruct (g x) |]; rewrite IH; reflexivity.
Qed.

Lemma Forall_filter_keeps {A : Type} (P : A -> Prop) (f : A -> bool) l :
  Forall P l -> Forall P (List.filter f l).
Proof.
  rewrite !Forall_forall. intros H x Hx. apply H.
  apply list_elem_of_In in Hx. apply list_elem_of_In.
  apply filter_In in Hx. tauto.
Qed.

Lemma selected_spec X Y p :
  selected X Y p = true <->
  (exists c, category p = VStr c /\ toLowerCase c = toLowerCase X) /\
  (forall y, Y = Some y ->
     exists n pre post,
       name p = VStr n /\
       toLowerCase n = (pre ++ toLowerCase y ++ post)%string).
Proof.
  unfold selected, category_equals_ci, name_contains_ci.
  rewrite andb_true_iff. split.
  - intros [Hc Hn]. split.
    + destruct (category p); try discriminate.
      apply String.eqb_eq in Hc. eauto.
    + intros y ->. destruct (name p); try discriminate.
      apply includes_spec in Hn as (pre & post & Hn). eauto 6.
  - intros [(c & -> & Hc) Hn]. split; [apply String.eqb_eq, Hc |].
    destruct Y as [y |]; [| reflexivity].
    destruct (Hn y eq_refl) as (n & pre & post & -> & Hy).
    apply includes_spec. eauto.
Qed.

(** C5, as the code has it: for a request with a non-empty [category=X],
    over records whose category is a string, the category filter runs
    first and keeps the records whose category is X up to case (the two
    have the same image under toLowerCase); when a
    search Y is given, the search filter runs on that result only, so that
    only the records the category filter kept need a name that is a
    string, and keeps those whose name holds Y up to case; the listing is
    the page slice of what is left: exactly the records of the array that
    pass both tests, in array order. *)
Theorem C5_category_then_search_then_slice st u req b X :
  method req = "GET" -> path req = ["api"; "products"] ->
  payload req = Parsed b ->
  query_category (query req) = Some X -> X <> "" ->
  Forall string_category st ->
  (forall y, query_search (query req) = Some y ->
     Forall string_name (List.filter (category_equals_ci X) st)) ->
  let Y := query_search (query req) in
  filter_as_claimed st u req X /\
  (exists F1 F,
     filter_by_category (query req) st = inr F1 /\
     filter_by_search (query req) F1 = inr F /\
     F1 = List.filter (category_equals_ci X) st /\
     F = List.filter (selected X Y) st) /\
  (forall p,
     In p (List.filter (selected X Y) st) <->
     In p st /\
     (exists c, category p = VStr c /\ toLowerCase c = toLowerCase X) /\
     (forall y, Y = Some y ->
        exists n pre post,
          name p = VStr n /\
          toLowerCase n = (pre ++ toLowerCase y ++ post)%string)).
Proof.
  intros Hm Hp Hb HX Hne Hst Hnames Y.
  pose proof (filter_by_category_strings (query req) X st HX Hne Hst) as H1.
  pose proof (filter_by_search_strings (query req)
                (List.filter (category_equals_ci X) st) Hnames) as H2.
  rewrite filter_filter_and in H2.
  change (fun x => category_equals_ci X x &&
                   match query_search (query req) with
                   | Some y => name_contains_ci y x
                   | None => true
                   end)
    with (selected X Y) in H2.
  assert (HF : filteredProducts (query req) st =
               inr (List.filter (selected X Y) st)).
  { unfold filteredProducts. rewrite H1. exact H2. }
  split; [| split].
  - unfold filter_as_claimed. eexists.
    apply (handle_listing st u req b _ Hm Hp Hb HF).
  - eauto 6.
  - intros p. rewrite filter_In, selected_spec. reflexivity.
Qed.

(** * Further properties *)

(** ** Which route answered *)

Lemma served_weaken layer stack req u st st' r :
  Served stack req u st st' r -> Served (layer :: stack) req u st st' r.
Proof.
  intros [h st1 r1 Hin Hh | verb pattern hs ps st1 r1 Hin Hm Hp Hr
          | h e Hin | e | ].
  - eapply served_by_use; [right; exact Hin | exact Hh].
  - eapply served_by_route; [right; exact Hin | exact Hm | exact Hp | exact Hr].
  - apply served_by_error_handler. right. exact Hin.
  - apply served_default_error.
  - apply served_default_not_found.
Qed.

Lemma run_handlers_outcome hs req ps u st :
  Forall quiet hs ->
  match run_handlers hs req ps u st with
  | (st', Respond _) => True
  | (st', _) => st' = st
  end.
Proof.
  intros Hq. pose proof (run_handlers_quiet hs req ps u st Hq) as H.
  destruct (run_handlers hs req ps u st) as [st' [| e | r]]; auto.
Qed.

Lemma run_stack_served stack pending req u st :
  Forall quiet (stack_handlers stack) ->
  Served stack req u st
    (fst (run_stack stack pending req u st))
    (snd (run_stack stack pending req u st)).
Proof.
  revert pending. induction stack as [| layer stack IH]; intros pending Hq.
  - destruct pending; cbn; constructor.
  - unfold stack_handlers in Hq. cbn in Hq. apply Forall_app in Hq as [Hl Hs].
    assert (Hrest : forall pend,
      Served (layer :: stack) req u st
        (fst (run_stack stack pend req u st))
        (snd (run_stack stack pend req u st))).
    { intros pend. apply served_weaken, IH, Hs. }
    destruct pending as [e |], layer as [h | h | verb pattern hs]; cbn;
      try apply Hrest.
    + apply served_by_error_handler. left. reflexivity.
    + apply Forall_cons in Hl as [Hh _]. specialize (Hh req [] u st).
      destruct (h req [] u st) as [st1 [| e | r]] eqn:E.
      * subst st1. apply Hrest.
      * subst st1. apply Hrest.
      * cbn. eapply served_by_use; [left; reflexivity | exact E].
    + destruct (String.eqb_spec (method req) verb) as [Hm | _];
        [| apply Hrest].
      destruct (match_path pattern (path req)) as [ps |] eqn:Hp;
        [| apply Hrest].
      pose proof (run_handlers_outcome hs req ps u st Hl) as Hrun.
      destruct (run_handlers hs req ps u st) as [st1 [| e | r]] eqn:E.
      * subst st1. apply Hrest.
      * subst st1. apply Hrest.
      * cbn. eapply served_by_route;
          [left; reflexivity | exact Hm | exact Hp | exact E].
Qed.

Lemma handle_served st u req :
  Served app req u st (fst (handle st u req)) (snd (handle st u req)).
Proof. apply run_stack_served, app_quiet. Qed.

Lemma match_collection segments ps :
  match_path [Lit "api"; Lit "products"] segments = Some ps ->
  segments = ["api"; "products"] /\ ps = [].
Proof.
  destruct segments as [| a [| b [| c rest]]]; cbn [match_path];
    try discriminate.
  - destruct (String.eqb_spec "api" a); discriminate.
  - destruct (String.eqb_spec "api" a) as [<- |]; [| discriminate].
    destruct (String.eqb_spec "products" b) as [<- |]; [| discriminate].
    intros [= <-]. split; reflexivity.
  - destruct (String.eqb_spec "api" a); [| discriminate].
    destruct (String.eqb_spec "products" b); discriminate.
Qed.

Lemma match_member segments ps :
  match_path [Lit "api"; Lit "products"; Par "id"] segments = Some ps ->
  exists i, segments = ["api"; "products"; i] /\ ps = [("id", i)].
Proof.
  destruct segments as [| a [| b [| c [| d rest]]]]; cbn [match_path];
    try discriminate.
  - destruct (String.eqb_spec "api" a); discriminate.
  - destruct (String.eqb_spec "api" a); [| discriminate].
    destruct (String.eqb_spec "products" b); discriminate.
  - destruct (String.eqb_spec "api" a) as [<- |]; [| discriminate].
    destruct (String.eqb_spec "products" b) as [<- |]; [| discriminate].
    intros [= <-]. exists c. split; reflexivity.
  - destruct (String.eqb_spec "api" a); [| discriminate].
    destruct (String.eqb_spec "products" b); discriminate.
Qed.

Lemma validated_then req ps u st st' r (h : Handler) :
  method req = "POST" \/ method req = "PUT" ->
  run_handlers [validateProduct; h] req ps u st = (st', Respond r) ->
  ~ violation (body req) /\ h req ps u st = (st', Respond r).
Proof.
  intros Hm Hrun. cbn in Hrun.
  destruct (validateProduct_outcome req ps u st) as [E | [msg E]];
    rewrite E in Hrun; [| discriminate].
  split.
  - intros Hv. destruct (validateProduct_throws req ps u st Hm Hv) as [msg E'].
    congruence.
  - destruct (h req ps u st) as [st1 [| e | r1]]; congruence.
Qed.

(** The array after a request is the array before it, or the result of a
    valid create on POST /api/products, of a valid update on
    PUT /api/products/:id, or of a delete on DELETE /api/products/:id. *)
Lemma handle_change st u req :
  Change st u req (fst (handle st u req)) (snd (handle st u req)).
Proof.
  destruct (handle_served st u req)
    as [h st' r Hin Hh | verb pattern hs ps st' r Hin Hm Hp Hr
        | h e Hin | e | ]; try apply ch_none.
  - unfold app, routes in Hin. cbn in Hin.
    repeat (destruct Hin as [Heq | Hin];
            [try discriminate Heq; injection Heq as <- |]);
      try contradiction.
    + discriminate.
    + unfold json_body_parser in Hh. destruct (payload req); discriminate.
  - unfold app, routes in Hin. cbn in Hin.
    repeat (destruct Hin as [Heq | Hin];
            [try discriminate Heq; injection Heq as <- <- <- |]);
      try contradiction; cbn in Hm.
    + cbn in Hr. injection Hr as <- <-. apply ch_none.
    + cbn in Hr. unfold get_products in Hr.
      destruct (filteredProducts _ _); [discriminate |].
      injection Hr as <- <-. apply ch_none.
    + cbn in Hr. unfold get_products_stats in Hr.
      destruct (tally _ _); [discriminate |].
      injection Hr as <- <-. apply ch_none.
    + cbn in Hr. unfold get_product in Hr. destruct (find _ _); [| discriminate].
      injection Hr as <- <-. apply ch_none.
    + apply match_collection in Hp as [Hp ->].
      apply validated_then in Hr as [Hv Hr]; [| left; exact Hm].
      injection Hr as <- <-. apply ch_created; assumption.
    + apply match_member in Hp as (i & Hp & ->).
      apply validated_then in Hr as [Hv Hr]; [| right; exact Hm].
      unfold put_product in Hr. cbn [param String.eqb Ascii.eqb Bool.eqb] in Hr.
      destruct (list_find _ _) as [[k p] |] eqn:Hf; [| discriminate].
      injection Hr as <- <-. eapply ch_updated; eassumption.
    + apply match_member in Hp as (i & Hp & ->).
      cbn in Hr. unfold delete_product in Hr.
      cbn [param String.eqb Ascii.eqb Bool.eqb] in Hr.
      destruct (existsb _ _) eqn:Hex; [| discriminate].
      injection Hr as <- <-. eapply ch_deleted; [exact Hm | exact Hp |].
      apply existsb_id_In, Hex.
Qed.

(** ** The pipeline *)

Lemma with_own_key req : with_key (x_api_key req) req = req.
Proof. destruct req. reflexivity. Qed.

(** X1: the response and the array after a request do not depend on the
    x-api-key header: two requests that agree on method, path, query and
    body are handled alike, whatever their keys. *)
Theorem X1_key_never_read st u req req' :
  same_but_key req req' ->
  handle st u req = handle st u req'.
Proof.
  intros (Hm & Hp & Hq & Hb).
  rewrite <- (handle_ignores_key (x_api_key req') st u req).
  f_equal. destruct req, req'. cbn in *. subst. reflexivity.
Qed.

(** X2: [authenticate] calls [next()] exactly when the header equals
    'secret-api-key'; for a missing, empty or different header it raises
    an AuthError with status 401 and the fixed message, and it never
    changes the array. *)
Theorem X2_authenticate_decides_on_header req ps u st :
  (authenticate req ps u st = (st, Next) <->
   x_api_key req = Some "secret-api-key") /\
  (x_api_key req <> Some "secret-api-key" ->
   exists e,
     authenticate req ps u st = (st, Throw e) /\
     err_name e = "AuthError" /\ statusCode e = Some 401 /\
     err_message e = "Invalid or missing API key") /\
  fst (authenticate req ps u st) = st.
Proof.
  destruct (authenticate_spec req ps u st) as [Hok Hbad].
  split; [| split].
  - split; [| exact Hok].
    intros H. destruct (x_api_key req) as [k |] eqn:Hk.
    + destruct (String.eqb_spec k "secret-api-key") as [-> | Hne];
        [reflexivity |].
      rewrite Hbad in H by congruence. discriminate.
    + rewrite Hbad in H by discriminate. discriminate.
  - intros Hne. eexists. split; [apply Hbad, Hne |]. repeat split.
  - destruct (x_api_key req) as [k |] eqn:Hk.
    + destruct (String.eqb_spec k "secret-api-key") as [-> | Hne].
      * rewrite Hok; reflexivity.
      * rewrite Hbad by congruence. reflexivity.
    + rewrite Hbad by discriminate. reflexivity.
Qed.

(** X3: when the JSON parser rejects the body, no route runs, whatever
    the method and the path: the array is unchanged and the response is
    the error document built from the parser's error, with its statusCode
    as HTTP status and as [status] field, or 500 if it has none or 0. *)
Theorem X3_malformed_body_gets_error_document st u req e :
  payload req = Malformed e ->
  handle st u req =
    (st, Json (status_of e)
           (JError (err_name e) (err_message e) (status_of e))) /\
  status_of e <> 0 /\
  (forall c, statusCode e = Some c -> c <> 0 -> status_of e = c) /\
  (statusCode e = None \/ statusCode e = Some 0 -> status_of e = 500).
Proof.
  intros Hb. rewrite (handle_malformed st u req e Hb).
  split; [reflexivity |]. unfold status_of. split; [| split].
  - destruct (statusCode e) as [c |]; [| discriminate].
    destruct (Z.eqb_spec c 0); [discriminate | assumption].
  - intros c -> Hc. destruct (Z.eqb_spec c 0); [contradiction | reflexivity].
  - intros [-> | ->]; reflexivity.
Qed.

(** X4: once the body is parsed, no response is the error document: the
    errors of the validator and of the route handlers are all left to
    Express' own handler, while the array stays as it was. *)
Theorem X4_route_errors_reach_no_error_document st u req b :
  payload req = Parsed b ->
  (forall s n m c, snd (handle st u req) <> Json s (JError n m c)) /\
  (forall e, snd (handle st u req) = DefaultError e ->
             fst (handle st u req) = st).
Proof.
  intros Hb. split.
  - intros s n m c. apply (route_errors_not_enveloped st u req b), Hb.
  - intros e He.
    destruct (handle_effect st u req) as [r _ | | i k p _ | i _];
      try reflexivity; discriminate.
Qed.

(** X5: a request whose method is not POST, PUT or DELETE never changes
    the array; in particular no GET does, on any path and with any
    query. *)
Theorem X5_only_three_verbs_write st u req :
  method req <> "POST" -> method req <> "PUT" -> method req <> "DELETE" ->
  fst (handle st u req) = st.
Proof.
  intros Hpost Hput Hdel.
  destruct (handle_change st u req) as [r | Hm _ _ | i k p Hm _ _ _ | i Hm _ _];
    [reflexivity | contradiction | contradiction | contradiction].
Qed.

(** X6: a request with a parsed body whose method is none of GET, POST,
    PUT and DELETE, nor HEAD or OPTIONS (which Express answers from the
    routes of the other verbs), matches no route: Express answers "not
    found" and the array is unchanged. *)
Theorem X6_other_verbs_match_no_route st u req b :
  payload req = Parsed b -> routed_verb (method req) = false ->
  method req <> "HEAD" -> method req <> "OPTIONS" ->
  handle st u req = (st, DefaultNotFound).
Proof.
  intros Hb Hv _ _. rewrite (handle_parsed st u req b Hb).
  unfold routed_verb in Hv.
  apply orb_false_elim in Hv as [Hv Hdel].
  apply orb_false_elim in Hv as [Hv Hput].
  apply orb_false_elim in Hv as [Hget Hpost].
  unfold routes. cbn [run_stack]. rewrite Hget, Hpost, Hput, Hdel.
  reflexivity.
Qed.












(** ** Reading, deleting and writing one record *)

Lemma find_by_id i (st : list Product) :
  List.find (fun p => String.eqb (id p) i) st =
  snd <$> list_find (fun p => id p = i) st.
Proof.
  induction st as [| p st IH]; cbn; [reflexivity |].
  destruct (String.eqb_spec (id p) i) as [Heq | Hne];
    destruct (decide (id p = i)); try contradiction; [reflexivity |].
  rewrite IH. destruct (list_find _ st) as [[k q] |]; reflexivity.
Qed.

Lemma list_find_absent i (st : list Product) :
  ~ In i (map id st) -> list_find (fun p => id p = i) st = None.
Proof.
  intros Hi. apply list_find_None. apply Forall_forall.
  intros p Hp Hid. apply Hi. apply in_map_iff. exists p.
  split; [exact Hid | apply list_elem_of_In, Hp].
Qed.

Lemma existsb_id_absent i (st : list Product) :
  ~ In i (map id st) ->
  existsb (fun p => String.eqb (id p) i) st = false.
Proof.
  intros Hi. destruct (existsb _ st) eqn:E; [| reflexivity].
  exfalso. apply Hi, existsb_id_In, E.
Qed.

Lemma existsb_id_present i (st : list Product) :
  In i (map id st) ->
  existsb (fun p => String.eqb (id p) i) st = true.
Proof.
  intros Hi. apply in_map_iff in Hi as (p & Hid & Hp).
  apply existsb_exists. exists p. split; [exact Hp |].
  apply String.eqb_eq, Hid.
Qed.

Lemma handle_get_by_id st u req i b :
  method req = "GET" -> path req = ["api"; "products"; i] ->
  i <> "stats" -> payload req = Parsed b ->
  handle st u req =
  match list_find (fun p => id p = i) st with
  | Some (k, p) => (st, Json 200 (JProduct p))
  | None => (st, DefaultError (NotFoundError "Product not found"))
  end.
Proof.
  intros Hm Hp Hi Hb. rewrite (handle_parsed st u req b Hb).
  unfold routes.
  repeat (cbn [run_stack run_handlers match_path]; rewrite ?Hm, ?Hp;
          rewrite ?String.eqb_refl).
  rewrite (proj2 (String.eqb_neq "stats" i)) by congruence.
  repeat (cbn [run_stack run_handlers match_path];
          rewrite ?String.eqb_refl).
  unfold get_product. cbn [param]. rewrite String.eqb_refl.
  rewrite find_by_id.
  destruct (list_find _ st) as [[k p] |]; reflexivity.
Qed.

Lemma handle_delete_by_id st u req i b :
  method req = "DELETE" -> path req = ["api"; "products"; i] ->
  payload req = Parsed b ->
  handle st u req =
  if existsb (fun p => String.eqb (id p) i) st
  then (List.filter (fun p => negb (String.eqb (id p) i)) st, SendEmpty 204)
  else (st, DefaultError (NotFoundError "Product not found")).
Proof.
  intros Hm Hp Hb. rewrite (handle_delete_product st u req i b Hm Hp Hb).
  unfold delete_product. cbn [param]. rewrite String.eqb_refl.
  destruct (existsb _ st); reflexivity.
Qed.

Lemma ids_after_delete i (st : list Product) :
  ~ In i (map id (List.filter (fun p => negb (String.eqb (id p) i)) st)).
Proof.
  intros H. apply in_map_iff in H as (p & Hid & Hp).
  apply filter_In in Hp as [_ Hp]. apply negb_true_iff in Hp.
  apply String.eqb_neq in Hp. contradiction.
Qed.

Lemma not_stats i : fold_ascii i <> "stats" -> i <> "stats".
Proof. intros H ->. apply H. reflexivity. Qed.

(** X8: GET /api/products/:id, for an id that is not the word "stats" in
    any letter case (Express compares the literal segments of a route
    without regard to case), answers 200 with the first record of the
    array that has the id, and raises NotFoundError when no record has it;
    the array is not changed. *)
Theorem X8_get_by_id_finds_first st u req i b :
  method req = "GET" -> path req = ["api"; "products"; i] ->
  fold_ascii i <> "stats" -> payload req = Parsed b ->
  (In i (map id st) ->
   exists k p,
     st !! k = Some p /\ id p = i /\
     (forall j q, st !! j = Some q -> (j < k)%nat -> id q <> i) /\
     handle st u req = (st, Json 200 (JProduct p))) /\
  (~ In i (map id st) ->
   handle st u req = (st, DefaultError (NotFoundError "Product not found"))).
Proof.
  intros Hm Hp Hi%not_stats Hb.
  rewrite (handle_get_by_id st u req i b Hm Hp Hi Hb). split.
  - intros Hin. destruct (list_find_id i st Hin) as (k & p & Hf).
    exists k, p. rewrite Hf.
    apply list_find_Some in Hf as (Hk & Hid & Hfirst).
    repeat split; assumption.
  - intros Hin. rewrite (list_find_absent i st Hin). reflexivity.
Qed.

(** X9: once DELETE /api/products/:id has succeeded, the id is gone: a GET
    of the same id raises NotFoundError, and so does a second DELETE. *)
Theorem X9_deleted_id_is_not_found st u u' del get i b b' :
  method del = "DELETE" -> path del = ["api"; "products"; i] ->
  payload del = Parsed b ->
  method get = "GET" -> path get = ["api"; "products"; i] ->
  payload get = Parsed b' ->
  fold_ascii i <> "stats" -> In i (map id st) ->
  let st' := fst (handle st u del) in
  snd (handle st u del) = SendEmpty 204 /\
  ~ In i (map id st') /\
  handle st' u' get =
    (st', DefaultError (NotFoundError "Product not found")) /\
  handle st' u' del =
    (st', DefaultError (NotFoundError "Product not found")).
Proof.
  intros Hdm Hdp Hdb Hgm Hgp Hgb Hi%not_stats Hin st'. subst st'.
  rewrite (handle_delete_by_id st u del i b Hdm Hdp Hdb).
  rewrite (existsb_id_present i st Hin). cbn [fst snd].
  pose proof (ids_after_delete i st) as Hgone.
  split; [reflexivity |]. split; [exact Hgone |]. split.
  - rewrite (handle_get_by_id _ u' get i b' Hgm Hgp Hi Hgb).
    rewrite (list_find_absent i _ Hgone). reflexivity.
  - rewrite (handle_delete_by_id _ u' del i b Hdm Hdp Hdb).
    rewrite (existsb_id_absent i _ Hgone). reflexivity.
Qed.

Lemma filter_sublist {A : Type} (f : A -> bool) (l : list A) :
  List.filter f l `sublist_of` l.
Proof.
  induction l as [| x l IH]; cbn; [constructor |].
  destruct (f x); [apply sublist_skip | apply sublist_cons]; exact IH.
Qed.

Lemma delete_unique_length i (st : list Product) :
  NoDup (map id st) -> In i (map id st) ->
  S (length (List.filter (fun p => negb (String.eqb (id p) i)) st)) =
  length st.
Proof.
  induction st as [| p st IH]; cbn; [contradiction |].
  intros Hnd Hin. apply NoDup_cons in Hnd as [Hp Hnd].
  destruct (String.eqb_spec (id p) i) as [Heq | Hne]; cbn.
  - f_equal. rewrite forallb_filter_id; [reflexivity |].
    apply forallb_forall. intros q Hq. apply negb_true_iff, String.eqb_neq.
    intros Hq'. apply Hp. apply list_elem_of_In. apply in_map_iff.
    exists q. split; [congruence | exact Hq].
  - f_equal. apply IH; [exact Hnd |].
    destruct Hin as [Hin | Hin]; [contradiction | exact Hin].
Qed.

(** X10: DELETE /api/products/:id on an id of the array answers 204 and
    leaves exactly the records with another id, in their order; when ids
    are unique, exactly one record goes.  On an id that is not in the
    array it raises NotFoundError. *)
Theorem X10_delete_removes_the_id st u req i b :
  method req = "DELETE" -> path req = ["api"; "products"; i] ->
  payload req = Parsed b ->
  let st' := fst (handle st u req) in
  (In i (map id st) ->
   snd (handle st u req) = SendEmpty 204 /\
   (forall p, In p st' <-> In p st /\ id p <> i) /\
   st' `sublist_of` st /\
   (NoDup (map id st) -> S (length st') = length st)) /\
  (~ In i (map id st) ->
   handle st u req = (st, DefaultError (NotFoundError "Product not found"))).
Proof.
  intros Hm Hp Hb st'. subst st'.
  rewrite (handle_delete_by_id st u req i b Hm Hp Hb). split.
  - intros Hin. rewrite (existsb_id_present i st Hin). cbn [fst snd].
    split; [reflexivity |]. split; [| split].
    + intros p. rewrite filter_In, negb_true_iff, String.eqb_neq. reflexivity.
    + apply filter_sublist.
    + intros Hnd. apply delete_unique_length; assumption.
  - intros Hin. rewrite (existsb_id_absent i st Hin). reflexivity.
Qed.

Lemma not_violation b :
  ~ violation b ->
  truthy (prop b "name") = true /\ truthy (prop b "price") = true /\
  is_number (prop b "price") = true /\ le_zero (prop b "price") = false.
Proof.
  intros Hv. unfold violation in Hv.
  destruct (truthy (prop b "name")), (truthy (prop b "price")),
    (is_number (prop b "price")), (le_zero (prop b "price")); tauto.
Qed.

Lemma body_parsed req b : payload req = Parsed b -> body req = b.
Proof. intros H. unfold body. rewrite H. reflexivity. Qed.

Lemma handle_post_valid st u req b :
  method req = "POST" -> path req = ["api"; "products"] ->
  payload req = Parsed b -> ~ violation b ->
  handle st u req =
  ((st ++ [newProduct u b])%list, Json 201 (JProduct (newProduct u b))).
Proof.
  intros Hm Hp Hb Hv. rewrite (handle_post_products st u req b Hm Hp Hb).
  rewrite validateProduct_passes
    by (rewrite (body_parsed req b Hb); exact Hv).
  unfold post_products. rewrite (body_parsed req b Hb). reflexivity.
Qed.

Lemma list_find_appended i (st : list Product) p :
  ~ In i (map id st) -> id p = i ->
  list_find (fun p => id p = i) (st ++ [p]) = Some (length st, p).
Proof.
  intros Hi Hp. apply list_find_Some. split; [| split].
  - rewrite lookup_app_r by lia. rewrite Nat.sub_diag. reflexivity.
  - exact Hp.
  - intros j q Hq Hlt Hid. apply Hi. apply in_map_iff. exists q.
    split; [exact Hid |]. rewrite lookup_app_l in Hq by exact Hlt.
    apply list_elem_of_In. eapply list_elem_of_lookup_2, Hq.
Qed.

Lemma list_find_assigned i k p b (st : list Product) :
  list_find (fun p => id p = i) st = Some (k, p) ->
  list_find (fun p => id p = i) (<[k := assigned p b]> st) =
  Some (k, assigned p b).
Proof.
  intros Hf. apply list_find_Some in Hf as (Hk & Hid & Hfirst).
  apply list_find_Some. split; [| split].
  - apply list_lookup_insert_eq. eapply lookup_lt_Some, Hk.
  - exact Hid.
  - intros j q Hq Hlt. rewrite list_lookup_insert_ne in Hq by lia.
    exact (Hfirst j q Hq Hlt).
Qed.

Lemma or_else_again x y : or_else x (or_else x y) = or_else x y.
Proof. unfold or_else. destruct (truthy x); reflexivity. Qed.

Lemma defined_or_again x y : defined_or x (defined_or x y) = defined_or x y.
Proof. destruct x; reflexivity. Qed.

Lemma assigned_again p b : assigned (assigned p b) b = assigned p b.
Proof.
  unfold assigned. cbn. rewrite !or_else_again, defined_or_again. reflexivity.
Qed.

(** X11: a record created with an id that is not yet in the array, and is
    not the word "stats" in any letter case, is returned unchanged by
    GET /api/products/:id on that id. *)
Theorem X11_created_record_is_readable st u u' post get b b' :
  method post = "POST" -> path post = ["api"; "products"] ->
  payload post = Parsed b -> ~ violation b ->
  method get = "GET" -> path get = ["api"; "products"; u] ->
  payload get = Parsed b' ->
  fold_ascii u <> "stats" -> ~ In u (map id st) ->
  let st' := fst (handle st u post) in
  snd (handle st u post) = Json 201 (JProduct (newProduct u b)) /\
  handle st' u' get = (st', Json 200 (JProduct (newProduct u b))).
Proof.
  intros Hpm Hpp Hpb Hv Hgm Hgp Hgb Hu%not_stats Hfresh st'. subst st'.
  rewrite (handle_post_valid st u post b Hpm Hpp Hpb Hv). cbn [fst snd].
  split; [reflexivity |].
  rewrite (handle_get_by_id _ u' get u b' Hgm Hgp Hu Hgb).
  rewrite (list_find_appended u st (newProduct u b) Hfresh eq_refl).
  reflexivity.
Qed.

(** X12: after a successful PUT /api/products/:id, a GET of the same id
    returns the record the PUT answered with; and sending the same PUT
    again changes nothing and gets the same answer. *)
Theorem X12_update_is_readable_and_idempotent st u u' u'' put get i b b' :
  method put = "PUT" -> path put = ["api"; "products"; i] ->
  payload put = Parsed b -> ~ violation b ->
  method get = "GET" -> path get = ["api"; "products"; i] ->
  payload get = Parsed b' ->
  fold_ascii i <> "stats" -> In i (map id st) ->
  let st' := fst (handle st u put) in
  exists p',
    snd (handle st u put) = Json 200 (JProduct p') /\
    handle st' u' get = (st', Json 200 (JProduct p')) /\
    handle st' u'' put = (st', Json 200 (JProduct p')).
Proof.
  intros Hpm Hpp Hpb Hv Hgm Hgp Hgb Hi%not_stats Hin st'. subst st'.
  destruct (list_find_id i st Hin) as (k & p & Hf).
  rewrite (handle_put_found st u put i b k p Hpm Hpp Hpb Hv Hf).
  cbn [fst snd]. exists (assigned p b).
  pose proof (list_find_assigned i k p b st Hf) as Hf'.
  split; [reflexivity |]. split.
  - rewrite (handle_get_by_id _ u' get i b' Hgm Hgp Hi Hgb), Hf'.
    reflexivity.
  - rewrite (handle_put_found _ u'' put i b k (assigned p b)
               Hpm Hpp Hpb Hv Hf').
    rewrite assigned_again, list_insert_insert_eq. reflexivity.
Qed.

(** ** What every stored record satisfies *)

Lemma truthy_defined v : truthy v = true -> v <> VUndefined.
Proof. intros H ->. discriminate. Qed.

Lemma or_else_truthy x y : truthy y = true -> truthy (or_else x y) = true.
Proof. intros Hy. unfold or_else. destruct (truthy x) eqn:E; assumption. Qed.

Lemma or_else_defined x y : y <> VUndefined -> or_else x y <> VUndefined.
Proof.
  intros Hy. unfold or_else. destruct (truthy x) eqn:E; [| exact Hy].
  apply truthy_defined, E.
Qed.

Lemma or_else_taken x y : truthy x = true -> or_else x y = x.
Proof. intros H. unfold or_else. rewrite H. reflexivity. Qed.

Lemma defined_or_defined x y : y <> VUndefined -> defined_or x y <> VUndefined.
Proof. intros Hy. destruct x; cbn; try discriminate. exact Hy. Qed.

Lemma newProduct_sound u b : ~ violation b -> sound_record (newProduct u b).
Proof.
  intros Hv. apply not_violation in Hv as (Hn & Hp & Hi & Hz).
  unfold sound_record, newProduct. cbn.
  repeat split; try assumption.
  - apply or_else_truthy. reflexivity.
  - apply or_else_defined. discriminate.
  - apply defined_or_defined. discriminate.
Qed.

Lemma assigned_sound p b :
  ~ violation b -> sound_record p -> sound_record (assigned p b).
Proof.
  intros Hv (Hi' & Hz' & Hp' & Hn' & Hc' & Hd' & Hs').
  apply not_violation in Hv as (Hn & Hp & Hi & Hz).
  unfold sound_record, assigned. cbn.
  rewrite (or_else_taken _ (price p) Hp), (or_else_taken _ (name p) Hn).
  repeat split; try assumption.
  - apply or_else_truthy, Hc'.
  - apply or_else_defined, Hd'.
  - apply defined_or_defined, Hs'.
Qed.

Lemma handle_keeps_sound st u req :
  Forall sound_record st -> Forall sound_record (fst (handle st u req)).
Proof.
  intros Hst.
  destruct (handle_change st u req)
    as [r | Hm Hp Hv | i k p Hm Hp Hv Hf | i Hm Hp Hin].
  - exact Hst.
  - apply Forall_app. split; [exact Hst |].
    apply Forall_cons. split; [| apply Forall_nil_2].
    apply newProduct_sound, Hv.
  - apply list_find_Some in Hf as (Hk & _ & _).
    apply Forall_insert; [exact Hst |].
    apply assigned_sound; [exact Hv |].
    rewrite Forall_forall in Hst. apply Hst.
    eapply list_elem_of_lookup_2, Hk.
  - apply Forall_filter_keeps, Hst.
Qed.

(** X13: whatever requests the server has handled since it started, every
    record of the array has a price that is a number above zero, a truthy
    name and category, and a description and an inStock that are not
    undefined: the validator and the fallbacks of create and update keep
    this for any array that has it, and the seeded array does. *)
Theorem X13_records_stay_sound :
  (forall st u req,
     Forall sound_record st ->
     Forall sound_record (fst (handle st u req))) /\
  (forall trace, Forall sound_record (serve seeded_products trace)).
Proof.
  split; [exact handle_keeps_sound |].
  assert (Hrun : forall trace st,
            Forall sound_record st -> Forall sound_record (serve st trace)).
  { induction trace as [| [u req] trace IH]; intros st Hst; cbn;
      [exact Hst |]. apply IH, handle_keeps_sound, Hst. }
  intros trace. apply Hrun.
  repeat apply Forall_cons_2; try apply Forall_nil_2;
    repeat split; discriminate.
Qed.

(** ** What each verb can do to the array *)

(** X14: a PUT never changes which ids the array holds, nor their order; a
    POST leaves the array as it was or adds one record at its end; a
    DELETE only removes records, keeping the order of the others. *)
Theorem X14_footprint_of_each_verb st u req :
  (method req = "PUT" -> map id (fst (handle st u req)) = map id st) /\
  (method req = "POST" ->
   fst (handle st u req) = st \/
   fst (handle st u req) = (st ++ [newProduct u (body req)])%list) /\
  (method req = "DELETE" -> fst (handle st u req) `sublist_of` st).
Proof.
  destruct (handle_change st u req)
    as [r | Hm Hp Hv | i k p Hm Hp Hv Hf | i Hm Hp Hin];
    (split; [| split]); intros Hm'; try congruence; auto.
  - apply list_find_Some in Hf as (Hk & _ & _).
    exact (ids_assigned k p (body req) st Hk).
  - apply filter_sublist.
Qed.

(** X15: the create handler does not look the generated id up: if
    [uuidv4()] returned an id the array already holds, the record would be
    appended all the same and two records would share the id. *)
Theorem X15_create_does_not_check_the_id st u req b :
  method req = "POST" -> path req = ["api"; "products"] ->
  payload req = Parsed b -> ~ violation b ->
  In u (map id st) ->
  handle st u req =
    ((st ++ [newProduct u b])%list, Json 201 (JProduct (newProduct u b))) /\
  ~ NoDup (map id (fst (handle st u req))).
Proof.
  intros Hm Hp Hb Hv Hin.
  rewrite (handle_post_valid st u req b Hm Hp Hb Hv).
  split; [reflexivity |]. cbn [fst]. rewrite map_app. cbn.
  intros Hnd. apply NoDup_app in Hnd as (_ & Hdisj & _).
  apply (Hdisj u); [apply list_elem_of_In, Hin |].
  apply list_elem_of_In. left. reflexivity.
Qed.

(** ** Pages *)

Lemma js_slice_pages {A : Type} (F : list A) (limit : Z) n :
  1 <= limit ->
  concat (map (fun k => js_slice F (Some (Fin ((Z.of_nat k - 1) * limit)))
                                   (Some (Fin (Z.of_nat k * limit))))
              (seq 1 n)) =
  take (n * Z.to_nat limit) F.
Proof.
  intros Hl. induction n as [| n IH]; [reflexivity |].
  rewrite seq_S, map_app, concat_app, IH. cbn [map concat Nat.add].
  rewrite app_nil_r.
  replace (Z.of_nat (S n) * limit)
    with ((Z.of_nat (S n) - 1) * limit + limit) by lia.
  rewrite js_slice_segment by nia.
  replace (Z.to_nat ((Z.of_nat (S n) - 1) * limit))
    with (n * Z.to_nat limit)%nat by nia.
  rewrite take_take_drop. f_equal. lia.
Qed.

Lemma js_slice_whole {A : Type} (F : list A) :
  js_slice F None (Some PosInf) = F.
Proof.
  unfold js_slice. cbn [slice_index]. rewrite Z.sub_0_r.
  change (Z.to_nat 0) with 0%nat. rewrite drop_0. apply take_ge. lia.
Qed.

(** X16: with a limit that is an integer of at least 1 the pages of a
    listing cut the filtered array into consecutive pieces: the products
    of pages 1 to [pages], put end to end, are the filtered array, each
    record once and in order.  With a limit that [parseInt] reads as
    Infinity there is no page to count, [pages] is 0, and page 1 lists the
    filtered array whole. *)
Theorem X16_pages_partition_the_listing st u q F :
  filteredProducts q st = inr F ->
  let limit := int_or (query_limit q) 10 in
  let pages := pages_of (Z.of_nat (length F)) limit in
  (forall l, limit = Fin l -> 1 <= l ->
     pages_through st u q (Z.to_nat pages) = F) /\
  (limit = PosInf ->
     pages = 0 /\
     listing_of (snd (handle st u (page_request q 1))) = F).
Proof.
  intros HF limit pages. split.
  - intros l Hlimit Hl. subst pages. rewrite Hlimit. cbn [pages_of].
    unfold pages_through.
    rewrite (map_ext_in _
      (fun k => js_slice F (Some (Fin ((Z.of_nat k - 1) * l)))
                           (Some (Fin (Z.of_nat k * l))))).
    + rewrite js_slice_pages by exact Hl.
      pose proof (ceil_div_bounds (Z.of_nat (length F)) l ltac:(lia)) as Hc.
      apply take_ge. nia.
    + intros k Hk. apply in_seq in Hk.
      rewrite (handle_listing st u (page_request q (Z.of_nat k)) ∅ F
                 eq_refl eq_refl eq_refl HF).
      cbn [snd listing_of page_request query query_page query_limit].
      fold limit. rewrite Hlimit. cbn [int_or].
      destruct (Z.eqb_spec (Z.of_nat k) 0); [lia | reflexivity].
  - intros Hlimit. subst pages. rewrite Hlimit. split; [reflexivity |].
    rewrite (handle_listing st u (page_request q 1) ∅ F
               eq_refl eq_refl eq_refl HF).
    cbn [snd listing_of page_request query query_page query_limit].
    fold limit. rewrite Hlimit. apply js_slice_whole.
Qed.

(** X17: with no page and no limit in the query, or values [parseInt]
    cannot read, or 0, the listing is page 1 with limit 10: a filtered
    array of at most ten records is listed whole, as one page, or as no
    page when it is empty. *)
Theorem X17_default_page_lists_up_to_ten st u req b F :
  method req = "GET" -> path req = ["api"; "products"] ->
  payload req = Parsed b ->
  filteredProducts (query req) st = inr F ->
  query_page (query req) = None \/ query_page (query req) = Some (Fin 0) ->
  query_limit (query req) = None \/ query_limit (query req) = Some (Fin 0) ->
  (length F <= 10)%nat ->
  handle st u req =
    (st, Json 200
           (JListing (Z.of_nat (length F)) 1
              (if (length F =? 0)%nat then 0 else 1) F)).
Proof.
  intros Hm Hp Hb HF Hpage Hlimit Hlen.
  rewrite (handle_listing st u req b F Hm Hp Hb HF).
  assert (int_or (query_page (query req)) 1 = 1) as ->
    by (destruct Hpage as [-> | ->]; reflexivity).
  assert (int_or (query_limit (query req)) 10 = 10) as ->
    by (destruct Hlimit as [-> | ->]; reflexivity).
  cbn [pages_of minus_one times].
  f_equal. f_equal. f_equal.
  - pose proof (ceil_div_bounds (Z.of_nat (length F)) 10 ltac:(lia)) as Hc.
    destruct (Nat.eqb_spec (length F) 0); lia.
  - change ((1 - 1) * 10) with 0. change (1 * 10) with (0 + 10).
    rewrite js_slice_segment by lia. cbn [Z.to_nat drop].
    apply take_ge. lia.
Qed.

(** ** Records the filters cannot read *)

Lemma lower_of_raises expr v e :
  lower_of expr v = inl e -> err_name e = "TypeError" /\ statusCode e = None.
Proof. destruct v; cbn; intros [= <-]; split; reflexivity. Qed.

Lemma lower_of_not_a_string expr v :
  not_a_string v -> exists e, lower_of expr v = inl e.
Proof.
  intros Hv. destruct v; cbn; eauto. exfalso. eapply Hv. reflexivity.
Qed.

Lemma filter_throwing_raises {A : Type} (f : A -> Error + bool) l e :
  filter_throwing f l = inl e -> exists x, In x l /\ f x = inl e.
Proof.
  induction l as [| x l IH]; cbn; [discriminate |].
  destruct (f x) as [e' | keep] eqn:Hx.
  - intros [= <-]. exists x. split; [left; reflexivity | exact Hx].
  - destruct (filter_throwing f l) as [e' | kept]; [| discriminate].
    intros [= <-]. destruct (IH eq_refl) as (y & Hy & Hfy).
    exists y. split; [right; exact Hy | exact Hfy].
Qed.

Lemma filter_throwing_bad {A : Type} (f : A -> Error + bool) l x e0 :
  In x l -> f x = inl e0 -> exists e, filter_throwing f l = inl e.
Proof.
  intros Hin Hx. induction l as [| y l IH]; [contradiction |]. cbn.
  destruct (f y) as [e' | keep] eqn:Hy; [eauto |].
  destruct Hin as [-> | Hin]; [congruence |].
  destruct (IH Hin) as [e ->]. eauto.
Qed.

Lemma category_filter_raises X (st : list Product) p :
  In p st -> not_a_string (category p) ->
  exists e, filter_throwing (category_is X) st = inl e /\
            err_name e = "TypeError" /\ statusCode e = None.
Proof.
  intros Hin Hbad.
  destruct (lower_of_not_a_string "p.category" (category p) Hbad) as [e0 He0].
  destruct (filter_throwing_bad (category_is X) st p e0 Hin) as [e He].
  { unfold category_is. rewrite He0. reflexivity. }
  exists e. split; [exact He |].
  apply filter_throwing_raises in He as (q & _ & Hq).
  unfold category_is in Hq.
  destruct (lower_of "p.category" (category q)) as [e1 |] eqn:E;
    [| discriminate].
  injection Hq as <-. eapply lower_of_raises, E.
Qed.

Lemma name_filter_raises Y (st : list Product) p :
  In p st -> not_a_string (name p) ->
  exists e, filter_throwing (name_includes Y) st = inl e /\
            err_name e = "TypeError" /\ statusCode e = None.
Proof.
  intros Hin Hbad.
  destruct (lower_of_not_a_string "p.name" (name p) Hbad) as [e0 He0].
  destruct (filter_throwing_bad (name_includes Y) st p e0 Hin) as [e He].
  { unfold name_includes. rewrite He0. reflexivity. }
  exists e. split; [exact He |].
  apply filter_throwing_raises in He as (q & _ & Hq).
  unfold name_includes in Hq.
  destruct (lower_of "p.name" (name q)) as [e1 |] eqn:E; [| discriminate].
  injection Hq as <-. eapply lower_of_raises, E.
Qed.

Lemma handle_listing_raises st u req b e :
  method req = "GET" -> path req = ["api"; "products"] ->
  payload req = Parsed b ->
  filteredProducts (query req) st = inl e ->
  handle st u req = (st, DefaultError e).
Proof.
  intros Hm Hp Hb HF. rewrite (handle_get_products st u req b Hm Hp Hb).
  unfold get_products. rewrite HF. reflexivity.
Qed.

Lemma listing_raises_on_category st u req b p X :
  method req = "GET" -> path req = ["api"; "products"] ->
  payload req = Parsed b -> In p st ->
  query_category (query req) = Some X -> X <> "" ->
  not_a_string (category p) ->
  exists e, handle st u req = (st, DefaultError e) /\
            err_name e = "TypeError" /\ statusCode e = None.
Proof.
  intros Hm Hp Hb Hin HX Hne Hbad.
  destruct (category_filter_raises X st p Hin Hbad) as (e & He & Hn & Hs).
  exists e. split; [| split; assumption].
  apply (handle_listing_raises st u req b e Hm Hp Hb).
  unfold filteredProducts, filter_by_category. rewrite HX.
  destruct (String.eqb_spec X ""); [contradiction |]. rewrite He.
  reflexivity.
Qed.

Lemma listing_raises_on_name st u req b p Y :
  method req = "GET" -> path req = ["api"; "products"] ->
  payload req = Parsed b -> In p st ->
  query_category (query req) = None ->
  query_search (query req) = Some Y -> Y <> "" ->
  not_a_string (name p) ->
  exists e, handle st u req = (st, DefaultError e) /\
            err_name e = "TypeError" /\ statusCode e = None.
Proof.
  intros Hm Hp Hb Hin HX HY Hne Hbad.
  destruct (name_filter_raises (toLowerCase Y) st p Hin Hbad)
    as (e & He & Hn & Hs).
  exists e. split; [| split; assumption].
  apply (handle_listing_raises st u req b e Hm Hp Hb).
  unfold filteredProducts, filter_by_category, filter_by_search.
  rewrite HX, HY.
  destruct (String.eqb_spec Y ""); [contradiction |]. exact He.
Qed.

(** X18: one record whose category is not a string makes every listing
    with a non-empty category filter fail, and one record whose name is
    not a string does the same to every listing that searches without a
    category filter: the filter callback raises a TypeError, which has no
    statusCode, nothing is listed, and the array is unchanged. *)
Theorem X18_unreadable_record_breaks_listings st u req b p :
  method req = "GET" -> path req = ["api"; "products"] ->
  payload req = Parsed b -> In p st ->
  (forall X, query_category (query req) = Some X -> X <> "" ->
     not_a_string (category p) ->
     exists e, handle st u req = (st, DefaultError e) /\
               err_name e = "TypeError" /\ statusCode e = None) /\
  (forall Y, query_category (query req) = None ->
     query_search (query req) = Some Y -> Y <> "" ->
     not_a_string (name p) ->
     exists e, handle st u req = (st, DefaultError e) /\
               err_name e = "TypeError" /\ statusCode e = None).
Proof.
  intros Hm Hp Hb Hin. split.
  - intros X. apply (listing_raises_on_category st u req b p X); assumption.
  - intros Y. apply (listing_raises_on_name st u req b p Y); assumption.
Qed.

(** X19: the validator checks the name and the price only, and checks of
    the name only that it is truthy: a create whose category is truthy
    and not a string is accepted, the value is stored as it is, and from
    then on every listing with a non-empty category filter raises a
    TypeError. *)
Theorem X19_create_can_store_unreadable_category
    st u u' post get b b' X :
  method post = "POST" -> path post = ["api"; "products"] ->
  payload post = Parsed b -> ~ violation b ->
  truthy (prop b "category") = true -> not_a_string (prop b "category") ->
  method get = "GET" -> path get = ["api"; "products"] ->
  payload get = Parsed b' ->
  query_category (query get) = Some X -> X <> "" ->
  let st' := fst (handle st u post) in
  (exists p, snd (handle st u post) = Json 201 (JProduct p) /\
             category p = prop b "category") /\
  exists e, handle st' u' get = (st', DefaultError e) /\
            err_name e = "TypeError" /\ statusCode e = None.
Proof.
  intros Hpm Hpp Hpb Hv Ht Hbad Hgm Hgp Hgb HX Hne st'. subst st'.
  rewrite (handle_post_valid st u post b Hpm Hpp Hpb Hv). cbn [fst snd].
  assert (Hc : category (newProduct u b) = prop b "category").
  { cbn. apply or_else_taken, Ht. }
  split; [eauto |].
  apply (listing_raises_on_category (st ++ [newProduct u b]) u' get b'
           (newProduct u b) X Hgm Hgp Hgb
           ltac:(apply in_or_app; right; left; reflexivity) HX Hne).
  rewrite Hc. exact Hbad.
Qed.

(** ** What the filters look at *)

Lemma filter_throwing_ext {A : Type} (f g : A -> Error + bool) l :
  (forall x, f x = g x) -> filter_throwing f l = filter_throwing g l.
Proof.
  intros H. induction l as [| x l IH]; cbn; [reflexivity |].
  rewrite H, IH. reflexivity.
Qed.

Lemma filteredProducts_by_key q q' st :
  filter_key (query_category q) = filter_key (query_category q') ->
  filter_key (query_search q) = filter_key (query_search q') ->
  filteredProducts q st = filteredProducts q' st.
Proof.
  intros Hc Hs. unfold filteredProducts.
  assert (H1 : filter_by_category q st = filter_by_category q' st).
  { unfold filter_by_category, filter_key in *.
    destruct (query_category q) as [x |], (query_category q') as [x' |];
      try destruct (String.eqb_spec x ""); try destruct (String.eqb_spec x' "");
      try discriminate; try reflexivity.
    injection Hc as Hc. apply filter_throwing_ext. intros p.
    unfold category_is. rewrite Hc. reflexivity. }
  rewrite H1. destruct (filter_by_category q' st) as [e | l]; [reflexivity |].
  unfold filter_by_search, filter_key in *.
  destruct (query_search q) as [y |], (query_search q') as [y' |];
    try destruct (String.eqb_spec y ""); try destruct (String.eqb_spec y' "");
    try discriminate; try reflexivity.
  injection Hs as Hs. rewrite Hs. reflexivity.
Qed.

(** X20: the listing reads its category and search parameters only
    through [toLowerCase], whatever that function does to letters outside
    A-Z, and takes an empty parameter for an absent one: two GET
    /api/products requests whose filters are both absent or empty, or
    have the same [toLowerCase] image, with the same page, limit and
    body, get the same response. *)
Theorem X20_filters_ignore_case_and_empty st u req req' :
  method req = "GET" -> path req = ["api"; "products"] ->
  method req' = "GET" -> path req' = ["api"; "products"] ->
  payload req = payload req' ->
  query_page (query req) = query_page (query req') ->
  query_limit (query req) = query_limit (query req') ->
  filter_key (query_category (query req)) =
    filter_key (query_category (query req')) ->
  filter_key (query_search (query req)) =
    filter_key (query_search (query req')) ->
  handle st u req = handle st u req'.
Proof.
  intros Hm Hp Hm' Hp' Hb Hpage Hlimit Hc Hs.
  destruct (payload req') as [b | e] eqn:Hb'.
  - rewrite (handle_get_products st u req b Hm Hp Hb).
    rewrite (handle_get_products st u req' b Hm' Hp' Hb').
    unfold get_products.
    rewrite (filteredProducts_by_key _ _ st Hc Hs), Hpage, Hlimit.
    reflexivity.
  - rewrite (handle_malformed st u req e Hb).
    rewrite (handle_malformed st u req' e Hb'). reflexivity.
Qed.

Lemma filter_throwing_sublist {A : Type} (f : A -> Error + bool) l F :
  filter_throwing f l = inr F -> F `sublist_of` l.
Proof.
  revert F. induction l as [| x l IH]; cbn; intros F.
  - intros [= <-]. constructor.
  - destruct (f x) as [e | keep]; [discriminate |].
    destruct (filter_throwing f l) as [e | kept]; [discriminate |].
    intros [= <-]. destruct keep;
      [apply sublist_skip | apply sublist_cons]; apply IH; reflexivity.
Qed.

Lemma filteredProducts_sublist q st F :
  filteredProducts q st = inr F -> F `sublist_of` st.
Proof.
  unfold filteredProducts, filter_by_category, filter_by_search.
  intros H.
  assert (Hcat : forall l, match query_category q with
                 | Some c => if String.eqb c "" then inr st
                             else filter_throwing (category_is c) st
                 | None => inr st
                 end = inr l -> l `sublist_of` st).
  { intros l. destruct (query_category q) as [c |];
      [destruct (String.eqb c "") |];
      try (intros [= <-]; reflexivity). apply filter_throwing_sublist. }
  destruct (match query_category q with
            | Some c => _ | None => _ end) as [e | l];
    [discriminate |].
  specialize (Hcat l eq_refl). etrans; [| exact Hcat].
  destruct (query_search q) as [s |]; [destruct (String.eqb s "") |];
    try (injection H as <-; reflexivity).
  eapply filter_throwing_sublist, H.
Qed.

Lemma filteredProducts_raises q st e :
  filteredProducts q st = inl e ->
  err_name e = "TypeError" /\ statusCode e = None.
Proof.
  unfold filteredProducts, filter_by_category, filter_by_search.
  intros H.
  assert (Hc : forall c l, filter_throwing (category_is c) l = inl e ->
                 err_name e = "TypeError" /\ statusCode e = None).
  { intros c l Hl. apply filter_throwing_raises in Hl as (p & _ & Hp).
    unfold category_is in Hp.
    destruct (lower_of "p.category" (category p)) as [e1 |] eqn:E;
      [| discriminate].
    injection Hp as <-. eapply lower_of_raises, E. }
  assert (Hn : forall y l, filter_throwing (name_includes y) l = inl e ->
                 err_name e = "TypeError" /\ statusCode e = None).
  { intros y l Hl. apply filter_throwing_raises in Hl as (p & _ & Hp).
    unfold name_includes in Hp.
    destruct (lower_of "p.name" (name p)) as [e1 |] eqn:E; [| discriminate].
    injection Hp as <-. eapply lower_of_raises, E. }
  destruct (query_category q) as [c |].
  - destruct (String.eqb c "").
    + destruct (query_search q) as [s |]; [destruct (String.eqb s "") |];
        try discriminate. eapply Hn, H.
    + destruct (filter_throwing (category_is c) st) as [e' | l] eqn:E.
      * injection H as <-. eapply Hc, E.
      * destruct (query_search q) as [s |]; [destruct (String.eqb s "") |];
          try discriminate. eapply Hn, H.
  - destruct (query_search q) as [s |]; [destruct (String.eqb s "") |];
      try discriminate. eapply Hn, H.
Qed.

Lemma js_slice_sublist {A : Type} (l : list A) a b :
  js_slice l a b `sublist_of` l.
Proof.
  unfold js_slice. etrans; [apply sublist_take | apply sublist_drop].
Qed.

(** X21: GET /api/products has two outcomes, whatever the query: a 200
    listing whose products are records of the array, in the order of the
    array, no more of them than total, and total no more than the size of
    the array; or a TypeError without statusCode, raised by a filter.  It
    lists no record that is not stored and never changes the array. *)
Theorem X21_listing_lists_stored_records st u req b :
  method req = "GET" -> path req = ["api"; "products"] ->
  payload req = Parsed b ->
  (exists total page pages listed,
     handle st u req = (st, Json 200 (JListing total page pages listed)) /\
     listed `sublist_of` st /\
     Z.of_nat (length listed) <= total <= Z.of_nat (length st)) \/
  (exists e,
     handle st u req = (st, DefaultError e) /\
     err_name e = "TypeError" /\ statusCode e = None).
Proof.
  intros Hm Hp Hb.
  destruct (filteredProducts (query req) st) as [e | F] eqn:HF.
  - right. exists e.
    split; [apply (handle_listing_raises st u req b e Hm Hp Hb HF) |].
    eapply filteredProducts_raises, HF.
  - left. do 4 eexists.
    split; [apply (handle_listing st u req b F Hm Hp Hb HF) |].
    pose proof (filteredProducts_sublist _ _ _ HF) as Hsub.
    split; [etrans; [apply js_slice_sublist | exact Hsub] |].
    split.
    + apply inj_le, sublist_length, js_slice_sublist.
    + apply inj_le, sublist_length, Hsub.
Qed.

(** ** Statistics *)



(** ** The order of the checks *)

Lemma validateProduct_message req ps u st :
  method req = "POST" \/ method req = "PUT" ->
  let name := prop (body req) "name" in
  let price := prop (body req) "price" in
  (truthy name = false \/ truthy price = false ->
   validateProduct req ps u st =
     (st, Throw (ValidationError "Name and price are required"))) /\
  (truthy name = true -> truthy price = true ->
   is_number price = false \/ le_zero price = true ->
   validateProduct req ps u st =
     (st, Throw (ValidationError "Price must be a positive number"))).
Proof.
  intros Hm name price. unfold validateProduct. fold name price.
  assert (String.eqb (method req) "POST" || String.eqb (method req) "PUT" = true)
    as -> by (destruct Hm as [-> | ->]; reflexivity).
  split.
  - intros [-> | ->]; cbn; [| rewrite orb_true_r]; reflexivity.
  - intros -> -> [-> | ->]; cbn; [| rewrite orb_true_r]; reflexivity.
Qed.

(** X23: on the create and update routes the body is checked before
    anything else: an update with an invalid body raises ValidationError
    whether or not the id exists, and NotFoundError is only raised for a
    valid body.  A missing or falsy name or price, a price of 0 included,
    gets the message 'Name and price are required'; a truthy price that is
    not a number, or is below zero, gets 'Price must be a positive
    number'. *)
Theorem X23_body_is_checked_before_the_id st u req i b :
  method req = "PUT" -> path req = ["api"; "products"; i] ->
  payload req = Parsed b ->
  (truthy (prop b "name") = false \/ truthy (prop b "price") = false ->
   handle st u req =
     (st, DefaultError (ValidationError "Name and price are required"))) /\
  (truthy (prop b "name") = true -> truthy (prop b "price") = true ->
   is_number (prop b "price") = false \/ le_zero (prop b "price") = true ->
   handle st u req =
     (st, DefaultError (ValidationError "Price must be a positive number"))) /\
  (~ violation b -> ~ In i (map id st) ->
   handle st u req =
     (st, DefaultError (NotFoundError "Product not found"))).
Proof.
  intros Hm Hp Hb.
  pose proof (validateProduct_message req [("id", i)] u st
                (or_intror Hm)) as [H1 H2].
  rewrite (body_parsed req b Hb) in H1, H2.
  rewrite (handle_put_product st u req i b Hm Hp Hb).
  split; [| split].
  - intros H. rewrite (H1 H). reflexivity.
  - intros Hn Hpr H. rewrite (H2 Hn Hpr H). reflexivity.
  - intros Hv Hin.
    rewrite validateProduct_passes
      by (rewrite (body_parsed req b Hb); exact Hv).
    unfold put_product. cbn [param]. rewrite String.eqb_refl.
    rewrite (list_find_absent i st Hin). reflexivity.
Qed.

(** ** Creating, then listing *)

Lemma filteredProducts_unfiltered q st :
  filter_key (query_category q) = None ->
  filter_key (query_search q) = None ->
  filteredProducts q st = inr st.
Proof.
  unfold filteredProducts, filter_by_category, filter_by_search, filter_key.
  destruct (query_category q) as [c |]; [destruct (String.eqb c "") |];
    try discriminate; intros _;
    (destruct (query_search q) as [s |]; [destruct (String.eqb s "") |]);
    try discriminate; reflexivity.
Qed.

(** X24: the array keeps the order of insertion: after a successful
    create, a listing without filters, on the default page and limit,
    shows the records that were there before, in their order, followed by
    the new record, as long as they are at most ten. *)
Theorem X24_created_record_is_listed_last st u u' post get b b' :
  method post = "POST" -> path post = ["api"; "products"] ->
  payload post = Parsed b -> ~ violation b ->
  method get = "GET" -> path get = ["api"; "products"] ->
  payload get = Parsed b' ->
  filter_key (query_category (query get)) = None ->
  filter_key (query_search (query get)) = None ->
  query_page (query get) = None -> query_limit (query get) = None ->
  (length st < 10)%nat ->
  let st' := fst (handle st u post) in
  handle st' u' get =
    (st', Json 200
            (JListing (Z.of_nat (length st) + 1) 1 1
               (st ++ [newProduct u b])%list)).
Proof.
  intros Hpm Hpp Hpb Hv Hgm Hgp Hgb Hc Hs Hpage Hlimit Hlen st'. subst st'.
  rewrite (handle_post_valid st u post b Hpm Hpp Hpb Hv). cbn [fst].
  rewrite (handle_listing _ u' get b' _ Hgm Hgp Hgb
             (filteredProducts_unfiltered _ _ Hc Hs)).
  rewrite Hpage, Hlimit. cbn [int_or pages_of minus_one times].
  assert (Hl : length (st ++ [newProduct u b]) = S (length st)).
  { rewrite length_app. cbn. lia. }
  rewrite Hl. f_equal. f_equal. f_equal.
  - lia.
  - pose proof (ceil_div_bounds (Z.of_nat (S (length st))) 10 ltac:(lia)).
    lia.
  - change ((1 - 1) * 10) with 0. change (1 * 10) with (0 + 10).
    rewrite js_slice_segment by lia. cbn [Z.to_nat drop].
    apply take_ge. lia.
Qed.

End Server.

(** * Examples *)

(** The examples are evaluated with [ascii_engine]. *)
#[local] Existing Instance ascii_engine.

Lemma C6_witness :
  (method put_price_750 = "POST" \/ method put_price_750 = "PUT") /\
  exists e,
    validateProduct put_price_750 [("id", "2")] "u" seeded_products =
    (seeded_products, Throw e).
Proof.
  split; [right; reflexivity |].
  apply (C6_validator_rejects_exactly put_price_750 [("id", "2")] "u"
           seeded_products (or_intror eq_refl)).
  left. reflexivity.
Defined.

(** The Kettle scenario against the seeded array. *)
Lemma C7_witness :
  ~ violation kettle /\
  handle seeded_products "0b7e" post_kettle =
    ((seeded_products ++
      [ mkProduct "0b7e" (VStr "Kettle") (VStr "") (VNum 30)
          (VStr "uncategorized") (VBool true) ])%list,
     Json 201
       (JProduct (mkProduct "0b7e" (VStr "Kettle") (VStr "") (VNum 30)
                    (VStr "uncategorized") (VBool true)))).
Proof.
  assert (Hv : ~ violation kettle).
  { intros [H | [H | [H | H]]]; vm_compute in H; discriminate. }
  split; [exact Hv |].
  exact (proj1 (C7_create_appends_defaulted_record seeded_products "0b7e"
                  post_kettle kettle eq_refl eq_refl eq_refl Hv)).
Defined.

Lemma C8_witness :
  ~ violation out_of_stock /\ In "2" (map id seeded_products) /\
  exists k p,
    seeded_products !! k = Some p /\
    handle seeded_products "u" put_out_of_stock =
      (<[k := assigned p out_of_stock]> seeded_products,
       Json 200 (JProduct (assigned p out_of_stock))) /\
    inStock (assigned p out_of_stock) = VBool false /\
    description (assigned p out_of_stock) = description p.
Proof.
  assert (Hv : ~ violation out_of_stock).
  { intros [H | [H | [H | H]]]; vm_compute in H; discriminate. }
  assert (Hin : In "2" (map id seeded_products)).
  { right. left. reflexivity. }
  split; [exact Hv |]. split; [exact Hin |].
  destruct (C8_update_merges_fields seeded_products "u" put_out_of_stock "2"
              out_of_stock eq_refl eq_refl eq_refl Hv Hin)
    as (k & p & Hk & _ & _ & Hh & _ & _ & Hd & _ & _ & _ & _ & Hs & _).
  exists k, p.
  split; [exact Hk |]. split; [exact Hh |]. split.
  - apply Hs. reflexivity.
  - rewrite Hd. reflexivity.
Defined.

(** The scenario with name and price in the body: 200, price 750, the
    other fields of record '2' as before. *)
Lemma C2_witness :
  ~ violation name_price_750 /\ In "2" (map id seeded_products) /\
  exists k p,
    list_find (fun p => id p = "2") seeded_products = Some (k, p) /\
    handle seeded_products "u" put_name_price_750 =
      (<[k := assigned p name_price_750]> seeded_products,
       Json 200 (JProduct (assigned p name_price_750))) /\
    price (assigned p name_price_750) = VNum 750 /\
    description (assigned p name_price_750) = description p /\
    category (assigned p name_price_750) = category p.
Proof.
  assert (Hv : ~ violation name_price_750).
  { intros [H | [H | [H | H]]]; vm_compute in H; discriminate. }
  assert (Hin : In "2" (map id seeded_products)).
  { right. left. reflexivity. }
  split; [exact Hv |]. split; [exact Hin |].
  destruct (proj2 (C2_put_needs_name_and_price seeded_products "u"
                     put_name_price_750 "2" name_price_750
                     eq_refl eq_refl eq_refl Hin) Hv)
    as (k & p & Hf & Hh & _ & Hpr & Hd & Hc & _).
  exists k, p.
  split; [exact Hf |]. split; [exact Hh |]. split; [| split].
  - rewrite Hpr. reflexivity.
  - apply Hd. reflexivity.
  - apply Hc. reflexivity.
Defined.

(** The scenario with only the price in the body:
    the validator raises, and the answer is not a 200 with a record. *)
Lemma C2_counterexample :
  handle seeded_products "u" put_price_750 =
    (seeded_products,
     DefaultError (ValidationError "Name and price are required")) /\
  ~ (exists p, snd (handle seeded_products "u" put_price_750) =
               Json 200 (JProduct p)).
Proof.
  split; [reflexivity |]. intros [p H]. vm_compute in H. discriminate.
Qed.

(** An update of an id that is not there: NotFoundError, array untouched. *)
Lemma C10_witness :
  snd (handle seeded_products "u" put_valid_999) =
    DefaultError (NotFoundError "Product not found") /\
  fst (handle seeded_products "u" put_valid_999) = seeded_products.
Proof.
  split; [reflexivity |].
  apply (proj2 (C10_failure_leaves_store seeded_products "u" put_valid_999)).
  reflexivity.
Defined.

Lemma C9_witness :
  NoDup (ids seeded_products) /\ ~ In "0b7e" (ids seeded_products) /\
  NoDup (ids (fst (handle seeded_products "0b7e" post_kettle))).
Proof.
  assert (Hnd : NoDup (ids seeded_products)).
  { apply (proj1 (proj2 C9_ids_stay_unique)), reach_seeded. }
  assert (Hu : ~ In "0b7e" (ids seeded_products)).
  { cbn. intuition discriminate. }
  split; [exact Hnd |]. split; [exact Hu |].
  exact (proj1 C9_ids_stay_unique seeded_products "0b7e" post_kettle Hnd Hu).
Defined.

(** The scenario of the spec: two electronics records, one per page. *)
Lemma C4_witness :
  filteredProducts (query get_electronics_1_1) seeded_products =
    inr (take 2 seeded_products) /\
  handle seeded_products "u" get_electronics_1_1 =
    (seeded_products, Json 200 (JListing 2 1 2 (take 1 seeded_products))) /\
  listing_as_claimed seeded_products "u" get_electronics_1_1
    (take 2 seeded_products).
Proof.
  split; [reflexivity |].
  pose proof (C4_pagination_with_positive_limit seeded_products "u"
                get_electronics_1_1 ∅ (take 2 seeded_products)
                eq_refl eq_refl eq_refl eq_refl)
    as (Hh & _ & _ & _ & _ & _ & Hl).
  split; [exact Hh |].
  exact (proj1 (Hl 1 eq_refl ltac:(lia))).
Defined.

(** With [limit=-1] the listing has two records, more than the limit, and
    page 1 lies beyond pages = -3 without the listing being empty.  With
    a limit that [parseInt] reads as [Infinity], pages is 0 and page 1,
    beyond it, lists the whole array. *)
Lemma C4_counterexample :
  filteredProducts (query get_limit_minus_1) seeded_products =
    inr seeded_products /\
  handle seeded_products "u" get_limit_minus_1 =
    (seeded_products, Json 200 (JListing 3 1 (-3) (take 2 seeded_products))) /\
  ~ listing_as_claimed seeded_products "u" get_limit_minus_1 seeded_products /\
  filteredProducts (query get_limit_infinite) seeded_products =
    inr seeded_products /\
  handle seeded_products "u" get_limit_infinite =
    (seeded_products, Json 200 (JListing 3 1 0 seeded_products)) /\
  ~ listing_as_claimed seeded_products "u" get_limit_infinite seeded_products.
Proof.
  split; [reflexivity |]. split; [reflexivity |]. split.
  { intros (listed & _ & -> & Hlen & _). vm_compute in Hlen. apply Hlen.
    reflexivity. }
  split; [reflexivity |]. split; [reflexivity |].
  intros (listed & _ & -> & _ & Hempty).
  specialize (Hempty eq_refl). vm_compute in Hempty. discriminate.
Qed.

(** The category filter runs first: the kitchen record with a number for
    a name does not pass it, and the search never reads that name. *)
Lemma C5_witness :
  Forall string_category with_numbered_name /\
  ~ Forall string_name with_numbered_name /\
  handle with_numbered_name "u" get_electronics_phone =
    (with_numbered_name,
     Json 200 (JListing 1 1 1 (take 1 (drop 1 seeded_products)))).
Proof.
  assert (Hc : Forall string_category with_numbered_name).
  { repeat apply Forall_cons_2; try apply Forall_nil_2;
      eexists; reflexivity. }
  assert (Hn : forall y : string,
             query_search (query get_electronics_phone) = Some y ->
             Forall string_name
               (List.filter (category_equals_ci "ELECTRONICS")
                  with_numbered_name)).
  { intros y _. vm_compute.
    repeat apply Forall_cons_2; try apply Forall_nil_2;
      eexists; reflexivity. }
  split; [exact Hc |]. split.
  { intros H. apply Forall_forall with (x := mkProduct "4" (VNum 7) (VStr "")
                 (VNum 4) (VStr "kitchen") (VBool true)) in H.
    - destruct H as [n H]. discriminate.
    - apply list_elem_of_In. do 3 right. left. reflexivity. }
  destruct (proj1 (C5_category_then_search_then_slice with_numbered_name "u"
              get_electronics_phone ∅ "ELECTRONICS"
              eq_refl eq_refl eq_refl eq_refl ltac:(discriminate) Hc Hn))
    as [pages Hh].
  rewrite Hh. vm_compute in Hh. injection Hh as <-. reflexivity.
Defined.

(** With [category=] (the empty string) the category step is skipped: all
    three seeded records are listed, though none has the empty category. *)
Lemma C5_counterexample :
  handle seeded_products "u" get_empty_category =
    (seeded_products, Json 200 (JListing 3 1 1 seeded_products)) /\
  ~ filter_as_claimed seeded_products "u" get_empty_category "".
Proof.
  split; [reflexivity |].
  intros [pages H]. vm_compute in H. discriminate.
Qed.

Lemma X1_witness :
  same_but_key delete_999 (with_key None delete_999) /\
  handle seeded_products "u" delete_999 =
  handle seeded_products "u" (with_key None delete_999).
Proof.
  assert (H : same_but_key delete_999 (with_key None delete_999)).
  { repeat split. }
  split; [exact H |].
  exact (X1_key_never_read seeded_products "u" _ _ H).
Defined.

Lemma X2_witness :
  x_api_key delete_1_no_key <> Some "secret-api-key" /\
  exists e,
    authenticate delete_1_no_key [] "u" seeded_products =
      (seeded_products, Throw e) /\
    statusCode e = Some 401.
Proof.
  assert (H : x_api_key delete_1_no_key <> Some "secret-api-key")
    by discriminate.
  split; [exact H |].
  destruct (proj1 (proj2 (X2_authenticate_decides_on_header delete_1_no_key
              [] "u" seeded_products)) H) as (e & He & _ & Hs & _).
  exists e. split; assumption.
Defined.

Lemma X3_witness :
  handle seeded_products "u" post_malformed =
    (seeded_products,
     Json 400 (JError "SyntaxError" "Unexpected token } in JSON" 400)).
Proof.
  exact (proj1 (X3_malformed_body_gets_error_document seeded_products "u"
                  post_malformed _ eq_refl)).
Defined.

Lemma X4_witness :
  snd (handle seeded_products "u" put_price_750) =
    DefaultError (ValidationError "Name and price are required") /\
  fst (handle seeded_products "u" put_price_750) = seeded_products.
Proof.
  split; [reflexivity |].
  exact (proj2 (X4_route_errors_reach_no_error_document seeded_products "u"
                  put_price_750 _ eq_refl) _ eq_refl).
Defined.

Lemma X5_witness :
  fst (handle seeded_products "u" get_limit_minus_1) = seeded_products.
Proof.
  apply X5_only_three_verbs_write; discriminate.
Defined.

Lemma X6_witness :
  handle seeded_products "u" patch_1 = (seeded_products, DefaultNotFound).
Proof.
  exact (X6_other_verbs_match_no_route seeded_products "u" patch_1 _
           eq_refl eq_refl ltac:(discriminate) ltac:(discriminate)).
Defined.


(** The tally on categories that name inherited properties: the first
    "constructor" stores NaN, the next two count 1 and 2, "valueOf" stays
    NaN and "__proto__" is not stored. *)
Lemma tally_inherited_named :
  snd (handle inherited_named "u" get_stats) =
    Json 200
      (JStats 6 6
         {[ "constructor" := Counted 2; "toys" := Counted 1;
            "valueOf" := NotANumber ]}).
Proof. vm_compute. reflexivity. Qed.

Lemma tally_keyless_named :
  handle keyless_named "u" get_stats =
    (keyless_named, DefaultError no_primitive).
Proof. reflexivity. Qed.

Lemma X8_witness :
  In "2" (map id seeded_products) /\
  exists p,
    handle seeded_products "u" get_2 = (seeded_products, Json 200 (JProduct p))
    /\ name p = VStr "Smartphone".
Proof.
  assert (Hin : In "2" (map id seeded_products)) by (right; left; reflexivity).
  split; [exact Hin |].
  destruct (proj1 (X8_get_by_id_finds_first seeded_products "u" get_2 "2" ∅
              eq_refl eq_refl ltac:(discriminate) eq_refl) Hin)
    as (k & p & _ & _ & _ & Hh).
  exists p. split; [exact Hh |].
  vm_compute in Hh. injection Hh as <-. reflexivity.
Defined.

Lemma X9_witness :
  In "2" (map id seeded_products) /\
  handle (fst (handle seeded_products "u" delete_2)) "v" get_2 =
    (fst (handle seeded_products "u" delete_2),
     DefaultError (NotFoundError "Product not found")).
Proof.
  assert (Hin : In "2" (map id seeded_products)) by (right; left; reflexivity).
  split; [exact Hin |].
  exact (proj1 (proj2 (proj2 (X9_deleted_id_is_not_found seeded_products
           "u" "v" delete_2 get_2 "2" ∅ ∅ eq_refl eq_refl eq_refl
           eq_refl eq_refl eq_refl ltac:(discriminate) Hin)))).
Defined.

Lemma X10_witness :
  In "2" (map id seeded_products) /\
  snd (handle seeded_products "u" delete_2) = SendEmpty 204 /\
  length (fst (handle seeded_products "u" delete_2)) = 2%nat.
Proof.
  assert (Hin : In "2" (map id seeded_products)) by (right; left; reflexivity).
  split; [exact Hin |].
  destruct (proj1 (X10_delete_removes_the_id seeded_products "u" delete_2
              "2" ∅ eq_refl eq_refl eq_refl) Hin) as (Hr & _ & _ & _).
  split; [exact Hr | reflexivity].
Defined.

Lemma X11_witness :
  ~ violation kettle /\ ~ In "0b7e" (map id seeded_products) /\
  handle (fst (handle seeded_products "0b7e" post_kettle)) "v" get_kettle =
    (fst (handle seeded_products "0b7e" post_kettle),
     Json 200 (JProduct (newProduct "0b7e" kettle))).
Proof.
  assert (Hv : ~ violation kettle).
  { intros [H | [H | [H | H]]]; vm_compute in H; discriminate. }
  assert (Hu : ~ In "0b7e" (map id seeded_products)).
  { cbn. intuition discriminate. }
  split; [exact Hv |]. split; [exact Hu |].
  exact (proj2 (X11_created_record_is_readable seeded_products "0b7e" "v"
           post_kettle get_kettle kettle ∅ eq_refl eq_refl eq_refl Hv
           eq_refl eq_refl eq_refl ltac:(discriminate) Hu)).
Defined.

Lemma X12_witness :
  ~ violation name_price_750 /\ In "2" (map id seeded_products) /\
  exists p',
    handle (fst (handle seeded_products "u" put_name_price_750)) "v" get_2 =
      (fst (handle seeded_products "u" put_name_price_750),
       Json 200 (JProduct p')) /\
    snd (handle seeded_products "u" put_name_price_750) =
      Json 200 (JProduct p').
Proof.
  assert (Hv : ~ violation name_price_750).
  { intros [H | [H | [H | H]]]; vm_compute in H; discriminate. }
  assert (Hin : In "2" (map id seeded_products)) by (right; left; reflexivity).
  split; [exact Hv |]. split; [exact Hin |].
  destruct (X12_update_is_readable_and_idempotent seeded_products
              "u" "v" "w" put_name_price_750 get_2 "2" name_price_750 ∅
              eq_refl eq_refl eq_refl Hv eq_refl eq_refl eq_refl
              ltac:(discriminate) Hin) as (p' & H1 & H2 & _).
  exists p'. split; assumption.
Defined.

Lemma X13_witness :
  Forall sound_record
    (serve seeded_products
       [("0b7e", post_kettle); ("u", put_price_750);
        ("v", put_numeric_name); ("w", delete_1_no_key)]).
Proof. exact (proj2 X13_records_stay_sound _). Defined.

Lemma X14_witness :
  map id (fst (handle seeded_products "u" put_name_price_750)) =
  map id seeded_products.
Proof.
  exact (proj1 (X14_footprint_of_each_verb seeded_products "u"
                  put_name_price_750) eq_refl).
Defined.

Lemma X15_witness :
  ~ violation kettle /\ In "2" (map id seeded_products) /\
  ~ NoDup (map id (fst (handle seeded_products "2" post_kettle))).
Proof.
  assert (Hv : ~ violation kettle).
  { intros [H | [H | [H | H]]]; vm_compute in H; discriminate. }
  assert (Hin : In "2" (map id seeded_products)) by (right; left; reflexivity).
  split; [exact Hv |]. split; [exact Hin |].
  exact (proj2 (X15_create_does_not_check_the_id seeded_products "2"
                  post_kettle kettle eq_refl eq_refl eq_refl Hv Hin)).
Defined.

Lemma X16_witness :
  filteredProducts limit_2 seeded_products = inr seeded_products /\
  pages_through seeded_products "u" limit_2 2 = seeded_products.
Proof.
  split; [reflexivity |].
  exact (proj1 (X16_pages_partition_the_listing seeded_products "u" limit_2
                  seeded_products eq_refl) 2 eq_refl ltac:(lia)).
Defined.

Lemma X17_witness :
  handle seeded_products "u"
    (request "GET" ["api"; "products"] None no_query ∅) =
  (seeded_products, Json 200 (JListing 3 1 1 seeded_products)).
Proof.
  exact (X17_default_page_lists_up_to_ten seeded_products "u"
           (request "GET" ["api"; "products"] None no_query ∅) ∅
           seeded_products eq_refl eq_refl eq_refl eq_refl
           (or_introl eq_refl) (or_introl eq_refl) ltac:(cbn; lia)).
Defined.

Lemma X18_witness :
  exists e,
    handle (seeded_products ++ [newProduct "c1" crate]) "u" get_kitchen =
      (seeded_products ++ [newProduct "c1" crate], DefaultError e)%list /\
    err_name e = "TypeError" /\ statusCode e = None.
Proof.
  apply (proj1 (X18_unreadable_record_breaks_listings
           (seeded_products ++ [newProduct "c1" crate]) "u" get_kitchen ∅
           (newProduct "c1" crate) eq_refl eq_refl eq_refl
           ltac:(do 3 right; left; reflexivity)) "kitchen" eq_refl);
    [discriminate | intros s; discriminate].
Defined.

Lemma X19_witness :
  ~ violation crate /\ not_a_string (prop crate "category") /\
  exists e,
    handle (fst (handle seeded_products "c1" post_crate)) "u" get_kitchen =
      (fst (handle seeded_products "c1" post_crate), DefaultError e) /\
    err_name e = "TypeError".
Proof.
  assert (Hv : ~ violation crate).
  { intros [H | [H | [H | H]]]; vm_compute in H; discriminate. }
  assert (Hbad : not_a_string (prop crate "category")).
  { intros s H. vm_compute in H. discriminate. }
  split; [exact Hv |]. split; [exact Hbad |].
  destruct (proj2 (X19_create_can_store_unreadable_category seeded_products
              "c1" "u" post_crate get_kitchen crate ∅ "kitchen"
              eq_refl eq_refl eq_refl Hv eq_refl Hbad
              eq_refl eq_refl eq_refl eq_refl ltac:(discriminate)))
    as (e & He & Hn & _).
  exists e. split; assumption.
Defined.

Lemma X20_witness :
  handle seeded_products "u" get_upper = handle seeded_products "u" get_lower.
Proof.
  exact (X20_filters_ignore_case_and_empty seeded_products "u"
           get_upper get_lower eq_refl eq_refl eq_refl eq_refl eq_refl
           eq_refl eq_refl eq_refl eq_refl).
Defined.

Lemma X21_witness :
  exists total page pages listed,
    handle seeded_products "u" get_limit_minus_1 =
      (seeded_products, Json 200 (JListing total page pages listed)) /\
    listed `sublist_of` seeded_products.
Proof.
  destruct (X21_listing_lists_stored_records seeded_products "u"
              get_limit_minus_1 ∅ eq_refl eq_refl eq_refl)
    as [(total & page & pages & listed & Hh & Hsub & _) | (e & He & _)].
  - exists total, page, pages, listed. split; assumption.
  - vm_compute in He. discriminate.
Defined.


Lemma X23_witness :
  ~ In "999" (map id seeded_products) /\
  handle seeded_products "u" put_invalid_999 =
    (seeded_products,
     DefaultError (ValidationError "Name and price are required")).
Proof.
  split; [cbn; intuition discriminate |].
  apply (proj1 (X23_body_is_checked_before_the_id seeded_products "u"
                  put_invalid_999 "999" _ eq_refl eq_refl eq_refl)).
  left. reflexivity.
Defined.

Lemma X24_witness :
  ~ violation kettle /\
  handle (fst (handle seeded_products "0b7e" post_kettle)) "u" get_all =
    (fst (handle seeded_products "0b7e" post_kettle),
     Json 200
       (JListing 4 1 1 (seeded_products ++ [newProduct "0b7e" kettle])%list)).
Proof.
  assert (Hv : ~ violation kettle).
  { intros [H | [H | [H | H]]]; vm_compute in H; discriminate. }
  split; [exact Hv |].
  exact (X24_created_record_is_listed_last seeded_products "0b7e" "u"
           post_kettle get_all kettle ∅ eq_refl eq_refl eq_refl Hv
           eq_refl eq_refl eq_refl eq_refl eq_refl eq_refl eq_refl
           ltac:(cbn; lia)).
Defined.
